(** * cf_ai_curling: tool-call orchestration and client result observer

    A shallow embedding of the tool registry ([src/tools.ts]), of the chat
    agent's turn ([src/server.ts], class [Chat], lines 30-112) and of the
    React client's tool-result observer (the component [Chat], lines 294-834
    of the same file), followed by the properties the specification states
    about them.

    Conventions of the embedding:
    - a JavaScript value that the code only inspects through truthiness
      tests, property reads and template strings is a [JsValue];
    - JavaScript numbers are IEEE doubles; the code never does arithmetic
      on them, so they are kept abstract behind the [JsNumber] interface;
    - a JavaScript string is a sequence of UTF-16 code units; the embedding
      carries the code units below 256 (one [ascii] per code unit);
    - [console.log] and [console.error] calls are not modelled;
    - an [async] function is embedded by its settled result: a returned
      value or a thrown one ([exn]). *)

From Stdlib Require Import ZArith String Ascii List Bool Lia.
From stdpp Require Import base decidable option list gmap sets strings pretty.

Set Warnings "-register-all".

(** ** JavaScript values *)

(** What the code needs of a JavaScript number. *)
Class JsNumber (number : Type) := {
  (** [ToBoolean]: false exactly for [+0], [-0] and [NaN]. *)
  num_truthy : number -> bool;
  (** [Number.prototype.toString], as used by a template literal. *)
  num_toString : number -> string;
  (** [Number.isNaN]. *)
  num_isNaN : number -> bool;
  (** The number denoting a natural number (array lengths, literals). *)
  num_of_nat : nat -> number
}.

Inductive JsValue {number : Type} : Type :=
| JUndefined
| JNull
| JBool (b : bool)
| JNum (n : number)
| JStr (s : string)
| JArr (items : list JsValue)
| JObj (fields : list (string * JsValue)).
Arguments JsValue number : clear implicits.

(** A thrown JavaScript value, seen the way the [catch] blocks of the
    sources look at it: [error instanceof Error ? error.message : String(error)]. *)
Inductive Thrown : Type :=
| ThrownError (message : string)      (* an [Error] instance *)
| ThrownOther (asString : string).    (* anything else; [String(error)] *)

(** The settled result of a computation that may throw. *)
Inductive exn (A : Type) : Type :=
| Ok (a : A)
| Throw (e : Thrown).
Arguments Ok {A} a.
Arguments Throw {A} e.

(** *** Strings: [trim], [toLowerCase], [startsWith] *)

(** WhiteSpace and LineTerminator code units below 256:
    TAB, LF, VT, FF, CR, SP and NBSP. *)
Definition isWhiteSpace (c : ascii) : bool :=
  let n := nat_of_ascii c in
  ((9 <=? n)%nat && (n <=? 13)%nat) || (n =? 32)%nat || (n =? 160)%nat.

Fixpoint trimStart (s : string) : string :=
  match s with
  | EmptyString => EmptyString
  | String c s' => if isWhiteSpace c then trimStart s' else s
  end.

Fixpoint trimEnd (s : string) : string :=
  match s with
  | EmptyString => EmptyString
  | String c s' =>
      match trimEnd s' with
      | EmptyString => if isWhiteSpace c then EmptyString else String c EmptyString
      | r => String c r
      end
  end.

Definition trim (s : string) : string := trimEnd (trimStart s).

(** Lower-casing of one code unit below 256: A-Z, and the Latin-1 capitals
    U+00C0-U+00DE except the multiplication sign U+00D7. *)
Definition lowerChar (c : ascii) : ascii :=
  let n := nat_of_ascii c in
  if ((65 <=? n)%nat && (n <=? 90)%nat)
     || ((192 <=? n)%nat && (n <=? 222)%nat && negb (n =? 215)%nat)
  then ascii_of_nat (n + 32)
  else c.

Fixpoint toLowerCase (s : string) : string :=
  match s with
  | EmptyString => EmptyString
  | String c s' => String (lowerChar c) (toLowerCase s')
  end.

(** [s.startsWith(p)]. *)
Definition startsWith (s p : string) : bool := String.prefix p s.

Section JsValues.
Context {number : Type} `{JsNumber number}.

#[local] Abbreviation JsValue := (JsValue number).

(** [ToBoolean]. *)
Definition truthy (v : JsValue) : bool :=
  match v with
  | JUndefined | JNull => false
  | JBool b => b
  | JNum n => num_truthy n
  | JStr s => negb (String.eqb s "")
  | JArr _ | JObj _ => true
  end.

Fixpoint lookup_field (key : string) (fields : list (string * JsValue)) : JsValue :=
  match fields with
  | [] => JUndefined
  | (k, v) :: rest => if String.eqb k key then v else lookup_field key rest
  end.

(** [v?.key], for the keys the sources read (none of which is defined on
    the prototype of a primitive or of an array): the own property of an
    object, [undefined] on everything else. *)
Definition get (v : JsValue) (key : string) : JsValue :=
  match v with
  | JObj fields => lookup_field key fields
  | _ => JUndefined
  end.

(** [v.key] without optional chaining: a [TypeError] on [null] and
    [undefined] (message as V8 words it). *)
Definition get_strict (v : JsValue) (key : string) : exn JsValue :=
  match v with
  | JUndefined =>
      Throw (ThrownError ("Cannot read properties of undefined (reading '" +:+ key +:+ "')"))
  | JNull =>
      Throw (ThrownError ("Cannot read properties of null (reading '" +:+ key +:+ "')"))
  | _ => Ok (get v key)
  end.

(** [a || b]. *)
Definition js_or (a b : JsValue) : JsValue := if truthy a then a else b.

(** [String(v)], the conversion a template literal applies. *)
Fixpoint js_String (v : JsValue) : string :=
  match v with
  | JUndefined => "undefined"
  | JNull => "null"
  | JBool true => "true"
  | JBool false => "false"
  | JNum n => num_toString n
  | JStr s => s
  | JArr items =>
      (fix join (l : list JsValue) : string :=
         match l with
         | [] => ""
         | x :: l' =>
             let e := match x with
                      | JUndefined | JNull => ""
                      | _ => js_String x
                      end in
             match l' with
             | [] => e
             | _ => e +:+ "," +:+ join l'
             end
         end) items
  | JObj _ => "[object Object]"
  end.

End JsValues.

(** ** The tool registry ([src/tools.ts]) *)

(** *** The D1 database binding, an external collaborator

    [db.prepare(sql)], optionally [.bind(...params)], then [.all()] or
    [.first()].  A call either yields a result or throws. *)

Inductive D1Method : Type := MethodAll | MethodFirst.

Record D1Call {number : Type} : Type := mkD1Call {
  call_sql : string;
  call_bind : option (list (JsValue number));   (* [None]: no [.bind] *)
  call_method : D1Method
}.
Arguments D1Call number : clear implicits.

(** The object [.all()] resolves to. *)
Record D1Result {number : Type} : Type := mkD1Result {
  results : option (list (JsValue number));
  meta : JsValue number
}.
Arguments D1Result number : clear implicits.

Record D1Database {number : Type} : Type := mkD1Database {
  d1_all : string -> option (list (JsValue number)) -> exn (D1Result number);
  (** [.first()] resolves to the first row, or to [null]. *)
  d1_first : string -> option (list (JsValue number)) -> exn (JsValue number)
}.
Arguments D1Database number : clear implicits.

(** [env] of "cloudflare:workers": the [DB] binding may be missing. *)
Record Env {number : Type} : Type := mkEnv {
  DB : option (D1Database number)
}.
Arguments Env number : clear implicits.

(** A computation that may call the database and may throw: the calls it
    made, in order, and how it settled. *)
Definition Eff (number A : Type) : Type := (list (D1Call number) * exn A)%type.

Section Effects.
Context {number : Type}.

Definition ret {A} (a : A) : Eff number A := ([], Ok a).

Definition bind {A B} (m : Eff number A) (k : A -> Eff number B) : Eff number B :=
  match m with
  | (calls, Ok a) => let '(calls', r) := k a in ((calls ++ calls')%list, r)
  | (calls, Throw e) => (calls, Throw e)
  end.

(** [try { body } catch (error) { handler }]. *)
Definition try_catch {A} (body : Eff number A) (handler : Thrown -> Eff number A)
  : Eff number A :=
  match body with
  | (calls, Ok a) => (calls, Ok a)
  | (calls, Throw e) => let '(calls', r) := handler e in ((calls ++ calls')%list, r)
  end.

(** [await db.prepare(sql).bind(...params).all()] (no [.bind] for [None]). *)
Definition db_all (db : D1Database number) (sql : string)
    (params : option (list (JsValue number))) : Eff number (D1Result number) :=
  ([mkD1Call number sql params MethodAll], d1_all db sql params).

(** [await db.prepare(sql).bind(...params).first()]. *)
Definition db_first (db : D1Database number) (sql : string)
    (params : option (list (JsValue number))) : Eff number (JsValue number) :=
  ([mkD1Call number sql params MethodFirst], d1_first db sql params).

Definition calls_of {A} (m : Eff number A) : list (D1Call number) := fst m.
Definition outcome_of {A} (m : Eff number A) : exn A := snd m.

End Effects.

Notation "'let!' x ':=' m 'in' k" := (bind m (fun x => k))
  (at level 10, x name, m at level 100, k at level 200, only parsing).

(** [error instanceof Error ? error.message : String(error)]. *)
Definition error_text (error : Thrown) : string :=
  match error with
  | ThrownError message => message
  | ThrownOther asString => asString
  end.

(** *** Tool inputs, as validated by the zod schemas *)

Inductive StoneColor : Type := red | yellow.

Record Stone {number : Type} : Type := mkStone {
  color : StoneColor;
  x : number;
  y : number
}.
Arguments Stone number : clear implicits.

Record QueryDatabaseInput {number : Type} : Type := mkQueryDatabaseInput {
  qd_query : string;
  qd_params : option (list (JsValue number))
}.
Arguments QueryDatabaseInput number : clear implicits.

Record VisualizeInput {number : Type} : Type := mkVisualizeInput {
  vi_shotId : number;
  vi_player : string;
  vi_team : string;
  vi_shotType : string;
  vi_stones : list (Stone number)
}.
Arguments VisualizeInput number : clear implicits.

Record SetShotIdInput {number : Type} : Type := mkSetShotIdInput {
  ss_shotId : number;
  ss_reason : option string
}.
Arguments SetShotIdInput number : clear implicits.

(** The two SQL texts of [queryShotDetails], character for character. *)
Definition shotQuery : string :=
  "
        SELECT 
          s.id as shot_id,
          s.number as shot_number,
          s.color as shot_color,
          s.team as shot_team,
          s.player_name,
          s.type as shot_type,
          s.turn,
          s.percent_score,
          e.id as end_id,
          e.number as end_number,
          e.direction,
          e.color_hammer,
          e.score_red,
          e.score_yellow,
          g.id as game_id,
          g.session,
          g.name as game_name,
          g.sheet,
          g.type as game_type,
          g.start_date,
          g.start_time,
          g.team_red,
          g.team_yellow,
          g.final_score_red,
          g.final_score_yellow,
          ev.name as event_name,
          ev.start_date as event_start_date,
          ev.end_date as event_end_date
        FROM shots s
        JOIN ends e ON s.end_id = e.id
        JOIN games g ON e.game_id = g.id
        JOIN events ev ON g.event_id = ev.id
        WHERE s.id = ?
      ".

Definition stoneQuery : string :=
  "
        SELECT color, x, y
        FROM stone_positions
        WHERE shot_id = ?
        ORDER BY id
      ".

Section Tools.
Context {number : Type} `{JsNumber number}.

#[local] Abbreviation JsValue := (JsValue number).

Definition failure (error : string) : JsValue :=
  JObj [("success", JBool false); ("error", JStr error)].

(** [queryDatabase.execute] ([tools.ts], lines 102-144). *)
Definition queryDatabase_execute (env : Env number) (input : QueryDatabaseInput number)
  : Eff number JsValue :=
  let query := qd_query input in
  let params := qd_params input in
  try_catch
    (let trimmedQuery := toLowerCase (trim query) in
     if negb (startsWith trimmedQuery "select") then
       ret (failure "Only SELECT queries are allowed with this tool. Use querySQLiteDatabase for other operations.")
     else
       match DB env with
       | None => ret (failure "Database not configured. Please set up D1 binding.")
       | Some db =>
           let! result := (match params with
                           | Some ps =>
                               if (0 <? length ps)%nat
                               then db_all db query (Some ps)
                               else db_all db query None
                           | None => db_all db query None
                           end) in
           ret (JObj [("success", JBool true);
                      ("rows", match results result with
                               | Some rows => JArr rows
                               | None => JUndefined
                               end);
                      ("count", match results result with
                                | Some rows =>
                                    js_or (JNum (num_of_nat (length rows)))
                                          (JNum (num_of_nat 0))
                                | None => JNum (num_of_nat 0)
                                end);
                      ("meta", meta result)])
       end)
    (fun error => ret (failure (error_text error))).

(** [queryShotDetails.execute] ([tools.ts], lines 156-236). *)
Definition queryShotDetails_execute (env : Env number) (shotId : number)
  : Eff number JsValue :=
  try_catch
    (match DB env with
     | None => ret (failure "Database not configured. Please set up D1 binding.")
     | Some db =>
         let! shotResult := db_first db shotQuery (Some [JNum shotId]) in
         if negb (truthy shotResult) then
           ret (failure ("Shot with ID " +:+ num_toString shotId +:+ " not found"))
         else
           let! stoneResult := db_all db stoneQuery (Some [JNum shotId]) in
           let stones := match results stoneResult with
                         | Some rows => rows
                         | None => []
                         end in
           ret (JObj [("success", JBool true);
                      ("shot", shotResult);
                      ("stones", JArr stones);
                      ("count", JNum (num_of_nat (length stones)))])
     end)
    (fun error => ret (failure (error_text error))).

(** The ways the lookup of [queryShotDetails] can fail. *)
Definition binding_absent (env : Env number) : Prop := DB env = None.

Definition record_absent (env : Env number) (shotId : number) : Prop :=
  exists db row,
    DB env = Some db
    /\ d1_first db shotQuery (Some [JNum shotId]) = Ok row
    /\ truthy row = false.

Definition lookup_throws (env : Env number) (shotId : number) (e : Thrown) : Prop :=
  exists db,
    DB env = Some db
    /\ (d1_first db shotQuery (Some [JNum shotId]) = Throw e
        \/ exists row,
             d1_first db shotQuery (Some [JNum shotId]) = Ok row
             /\ truthy row = true
             /\ d1_all db stoneQuery (Some [JNum shotId]) = Throw e).

Definition color_name (c : StoneColor) : string :=
  match c with red => "red" | yellow => "yellow" end.

Definition stone_value (s : Stone number) : JsValue :=
  JObj [("color", JStr (color_name (color s)));
        ("x", JNum (x s));
        ("y", JNum (y s))].

(** [visualizeCurlingShot.execute] ([tools.ts], lines 263-276). *)
Definition visualizeCurlingShot_execute (input : VisualizeInput number) : JsValue :=
  JObj [("success", JBool true);
        ("visualization",
          JObj [("shotId", JNum (vi_shotId input));
                ("player", JStr (vi_player input));
                ("team", JStr (vi_team input));
                ("shotType", JStr (vi_shotType input));
                ("stones", JArr (map stone_value (vi_stones input)))]);
        ("message",
          JStr ("Visualized shot " +:+ num_toString (vi_shotId input)
                +:+ " by " +:+ vi_player input
                +:+ " (" +:+ vi_team input +:+ "): " +:+ vi_shotType input
                +:+ " with " +:+ pretty (length (vi_stones input))
                +:+ " stones in play."))].

(** [setShotId.execute] ([tools.ts], lines 293-300). *)
Definition setShotId_execute (input : SetShotIdInput number) : JsValue :=
  JObj [("success", JBool true);
        ("shotId", JNum (ss_shotId input));
        ("message",
          JStr (match ss_reason input with
                | Some reason =>
                    if truthy (JStr reason : JsValue) then reason
                    else "Updated display to show shot " +:+ num_toString (ss_shotId input)
                | None => "Updated display to show shot " +:+ num_toString (ss_shotId input)
                end));
        ("updateShotId", JBool true)].

End Tools.

(** ** Messages ([UIMessage] of the AI SDK, as the sources use it) *)

Inductive Role : Type := user | assistant | system.

Inductive ToolInvocationState : Type :=
| input_streaming
| input_available
| output_available
| output_error.

Record ToolInvocation {number : Type} : Type := mkToolInvocation {
  toolCallId : string;
  toolName : string;
  state : ToolInvocationState;
  input : JsValue number;
  output : option (JsValue number)
}.
Arguments ToolInvocation number : clear implicits.

Inductive Part {number : Type} : Type :=
| TextPart (text : string)
| ToolInvocationPart (inv : ToolInvocation number).
Arguments Part number : clear implicits.

Record Message {number : Type} : Type := mkMessage {
  msg_id : string;
  role : Role;
  parts : list (Part number);
  createdAt : option string
}.
Arguments Message number : clear implicits.

Definition role_eqb (a b : Role) : bool :=
  match a, b with
  | user, user | assistant, assistant | system, system => true
  | _, _ => false
  end.

Definition state_eqb (a b : ToolInvocationState) : bool :=
  match a, b with
  | input_streaming, input_streaming
  | input_available, input_available
  | output_available, output_available
  | output_error, output_error => true
  | _, _ => false
  end.

(** [part.type] of a tool part: the tool's name behind the prefix "tool-";
    [isToolUIPart] recognises exactly these parts. *)
Definition part_type {number : Type} (inv : ToolInvocation number) : string :=
  "tool-" +:+ toolName inv.

(** ** MessageSanitizer *)

Section Sanitizer.
Context {number : Type}.

(** A part in [input-available] with no corresponding output. *)
Definition incomplete (p : Part number) : bool :=
  match p with
  | TextPart _ => false
  | ToolInvocationPart inv =>
      state_eqb (state inv) input_available
      && match output inv with None => true | Some _ => false end
  end.

Definition with_parts (m : Message number) (ps : list (Part number)) : Message number :=
  mkMessage number (msg_id m) (role m) ps (createdAt m).

(** Modelled from the spec: the sanitizer's rule of section 4.1, in its
    words ([cleanupMessages] lives in [./utils], which is missing from the
    sources).  If the last part of the last message is an incomplete tool
    invocation it is dropped, along with the message when that leaves it
    empty; otherwise the rule does not apply ([None]). *)
Definition drop_trailing (messages : list (Message number))
  : option (list (Message number)) :=
  match rev messages with
  | [] => None
  | m :: older =>
      match rev (parts m) with
      | [] => None
      | p :: before =>
          if incomplete p then
            match before with
            | [] => Some (rev older)
            | _ => Some (rev (with_parts m (rev before) :: older))
            end
          else None
      end
  end.

End Sanitizer.

(** ** ModelStreamOrchestrator: the bounded step loop *)

Section StepLoop.
Context {number : Type}.

#[local] Abbreviation JsValue := (JsValue number).

Record ToolCall : Type := mkToolCall {
  tc_toolCallId : string;
  tc_toolName : string;
  tc_input : JsValue
}.

(** [ToolDefinition] of the spec's data model: tools without [execute]
    wait for a human decision. *)
Record ToolDefinition : Type := mkToolDefinition {
  requiresConfirmation : bool;
  execute : option (JsValue -> exn JsValue)
}.

(** What the model emits in one step: text and tool requests. *)
Record ModelOutput : Type := mkModelOutput {
  mo_text : string;
  mo_toolCalls : list ToolCall
}.

Inductive ToolOutcome : Type :=
| ToolOutput (v : JsValue)
| ToolError (errorText : string)
| ToolPending.

Record Step : Type := mkStep {
  step_output : ModelOutput;
  step_results : list (ToolCall * ToolOutcome)
}.

(** The model is any function of the submitted history and of the steps
    taken so far in the turn. *)
Definition LanguageModel : Type := list (Message number) -> list Step -> ModelOutput.

Definition ToolSet : Type := string -> option ToolDefinition.

Inductive FinishReason : Type :=
| FinalAnswer             (* no further tool request *)
| AwaitingConfirmation    (* a call is left [input-available] *)
| StepBoundReached.       (* forced termination, no error *)

(** Modelled from the spec: running one requested call (sections 4.2 and
    4.3); the AI SDK's executor is not under the sources.  A throwing
    [execute] is contained as an error outcome. *)
Definition run_tool (tools : ToolSet) (call : ToolCall) : ToolOutcome :=
  match tools (tc_toolName call) with
  | None => ToolError "unknown tool"
  | Some def =>
      match execute def with
      | None => ToolPending
      | Some f =>
          match f (tc_input call) with
          | Ok v => ToolOutput v
          | Throw e => ToolError (error_text e)
          end
      end
  end.

Definition is_pending (r : ToolCall * ToolOutcome) : bool :=
  match snd r with ToolPending => true | _ => false end.

(** [stepCountIs(n)] of the AI SDK: the stop condition that holds when
    exactly [n] steps have been recorded. *)
Definition stepCountIs (n : nat) (steps : list Step) : bool :=
  (length steps =? n)%nat.

(** Modelled from the spec: the step loop of [streamText] (section 4.3;
    the AI SDK's implementation is not under the sources).  Each step asks
    the model, runs the requested calls, and records the step; the loop
    ends on a final answer, on a call awaiting confirmation, or when the
    stop condition holds.  [None] means that the fuel ran out. *)
Fixpoint step_loop (stopWhen : list Step -> bool) (tools : ToolSet)
    (model : LanguageModel) (history : list (Message number))
    (fuel : nat) (steps : list Step) : option (list Step * FinishReason) :=
  match fuel with
  | O => None
  | S fuel' =>
      let out := model history steps in
      let res := map (fun c => (c, run_tool tools c)) (mo_toolCalls out) in
      let steps' := (steps ++ [mkStep out res])%list in
      match mo_toolCalls out with
      | [] => Some (steps', FinalAnswer)
      | _ =>
          if existsb is_pending res then Some (steps', AwaitingConfirmation)
          else if stopWhen steps' then Some (steps', StepBoundReached)
          else step_loop stopWhen tools model history fuel' steps'
      end
  end.

(** [streamText({ ..., stopWhen: stepCountIs(10) })] of [Chat.onChatMessage]
    ([server.ts], lines 62-103). *)
Definition streamText (tools : ToolSet) (model : LanguageModel)
    (history : list (Message number)) (fuel : nat)
  : option (list Step * FinishReason) :=
  step_loop (stepCountIs 10) tools model history fuel [].

(** A model that requests another tool call on every step, each for a
    tool that runs automatically. *)
Definition always_requests (tools : ToolSet) (model : LanguageModel)
    (history : list (Message number)) : Prop :=
  forall steps,
    mo_toolCalls (model history steps) <> []
    /\ existsb is_pending
         (map (fun c => (c, run_tool tools c)) (mo_toolCalls (model history steps)))
       = false.

End StepLoop.
Arguments ToolCall number : clear implicits.
Arguments ToolDefinition number : clear implicits.
Arguments ModelOutput number : clear implicits.
Arguments ToolOutcome number : clear implicits.
Arguments Step number : clear implicits.
Arguments LanguageModel number : clear implicits.
Arguments ToolSet number : clear implicits.

(** ** ClientResultObserver (the React component [Chat], [server.ts] lines 294-834) *)

(** The React state of the component that the observer reads and writes. *)
Record ChatState {number : Type} : Type := mkChatState {
  (** [useState<CurrentShot | null>(null)]: the visualization state. *)
  currentShot : JsValue number;
  (** [useState(42)]; [setShotId(result.shotId as number)] is an unchecked
      cast, so any value can land here. *)
  shotId : JsValue number;
  (** [useState<Set<string>>(new Set())]. *)
  processedToolCalls : gset string
}.
Arguments ChatState number : clear implicits.

(** What a handler of the component can ask for.  The first three are the
    state setters, applied by React after the handler has run; the last two
    start asynchronous work outside the component. *)
Inductive Action {number : Type} : Type :=
| SetCurrentShot (value : JsValue number)
| SetShotId (value : JsValue number)
(** [setProcessedToolCalls((prev) => new Set(prev).add(toolCallId))],
    the only update of that state in the component. *)
| MarkProcessed (id : string)
(** [handleShotQuery(shotId)]: one [fetch] of [/api/shot?id=...]. *)
| HandleShotQuery (id : JsValue number)
| SendMessage (text : string).
Arguments Action number : clear implicits.

Section Client.
Context {number : Type} `{JsNumber number}.

#[local] Abbreviation JsValue := (JsValue number).

Definition initialState : ChatState number :=
  mkChatState number JNull (JNum (num_of_nat 42)) ∅.

(** [part.output as Record<string, unknown>]: [undefined] when the part
    carries no output. *)
Definition output_value (inv : ToolInvocation number) : JsValue :=
  match output inv with
  | Some v => v
  | None => JUndefined
  end.

(** The body of the inner [forEach] of the tool-result effect
    ([server.ts], lines 440-498).
    [processedToolCalls] is the value captured by the render the effect
    belongs to: the updates queued during the pass do not change it. *)
Definition observe_part (processedToolCalls : gset string) (part : Part number)
  : list (Action number) :=
  match part with
  | TextPart _ => []
  | ToolInvocationPart inv =>
      if state_eqb (state inv) output_available then
        let toolCallId := toolCallId inv in
        if decide (toolCallId ∈ processedToolCalls) then []
        else
          let result := output_value inv in
          ((if String.eqb (part_type inv) "tool-visualizeCurlingShot"
               && truthy (get result "success")
               && truthy (get result "visualization")
            then
              let viz := get result "visualization" in
              [SetCurrentShot
                 (JObj [("stones", get viz "stones");
                        ("shotInfo",
                          JObj [("player", get viz "player");
                                ("team", get viz "team");
                                ("type", get viz "shotType");
                                ("shotId", get viz "shotId")])]);
               MarkProcessed toolCallId]
            else [])
           ++
           (if String.eqb (part_type inv) "tool-setShotId"
               && truthy (get result "success")
               && truthy (get result "updateShotId")
            then
              let newShotId := get result "shotId" in
              [SetShotId newShotId;
               HandleShotQuery newShotId;
               MarkProcessed toolCallId]
            else []))%list
      else []
  end.

(** [agentMessages.forEach((message) => { if (message.role === "assistant")
    message.parts?.forEach(...) })]. *)
Definition observe_message (processedToolCalls : gset string) (message : Message number)
  : list (Action number) :=
  if role_eqb (role message) assistant
  then flat_map (observe_part processedToolCalls) (parts message)
  else [].

Definition observe_messages (processedToolCalls : gset string)
    (agentMessages : list (Message number)) : list (Action number) :=
  flat_map (observe_message processedToolCalls) agentMessages.

(** React applying one queued update. *)
Definition apply_action (st : ChatState number) (a : Action number) : ChatState number :=
  match a with
  | SetCurrentShot v => mkChatState number v (shotId st) (processedToolCalls st)
  | SetShotId v => mkChatState number (currentShot st) v (processedToolCalls st)
  | MarkProcessed id =>
      mkChatState number (currentShot st) (shotId st) ({[id]} ∪ processedToolCalls st)
  | HandleShotQuery _ | SendMessage _ => st
  end.

Definition commit (st : ChatState number) (actions : list (Action number))
  : ChatState number :=
  fold_left apply_action actions st.

(** One observer pass: the effect runs over the whole list with the state
    of its render, then React commits the queued updates. *)
Definition observer_pass (st : ChatState number) (agentMessages : list (Message number))
  : ChatState number :=
  commit st (observe_messages (processedToolCalls st) agentMessages).

(** [handleShotQuery] ([server.ts], lines 364-420) once its [fetch] has
    settled: [response] is the parsed body, or what [fetch] or
    [response.json()] threw.  [sendMessage] is taken to resolve. *)
Definition handleShotQuery_settled (shotId : JsValue) (response : exn JsValue)
  : list (Action number) :=
  let body : exn (list (Action number)) :=
    match response with
    | Throw e => Throw e
    | Ok data =>
        match get_strict data "success" with
        | Throw e => Throw e
        | Ok success =>
            if truthy success && truthy (get data "shot") && truthy (get data "stones")
            then Ok [SetCurrentShot data]
            else Ok [SendMessage
                       ("Error: " +:+
                        js_String (js_or (get data "error")
                                     (JStr ("Shot " +:+ js_String shotId +:+ " not found"))))]
        end
    end in
  match body with
  | Ok actions => actions
  | Throw error =>
      [SendMessage
         ("Error querying shot " +:+ js_String shotId +:+ ": " +:+
          match error with
          | ThrownError message => message
          | ThrownOther _ => "Unknown error"
          end)]
  end.

(** The effect [if (shotId) handleShotQuery(shotId)], run on mount and
    whenever [shotId] changes. *)
Definition shotId_effect (st : ChatState number) : list (Action number) :=
  if truthy (shotId st) then [HandleShotQuery (shotId st)] else [].

(** [onChange] of the shot-id input box, [id] being
    [parseInt(e.target.value, 10)]. *)
Definition shotId_input (id : number) : list (Action number) :=
  (SetShotId (JNum id)
   :: (if negb (num_isNaN id) then [HandleShotQuery (JNum id)] else []))%list.

(** Everything that can happen to the component's state in a session. *)
Inductive session_step : ChatState number -> ChatState number -> Prop :=
| step_observer st agentMessages :
    session_step st (observer_pass st agentMessages)
| step_shot_settled st id response :
    session_step st (commit st (handleShotQuery_settled id response))
| step_shotId_effect st :
    session_step st (commit st (shotId_effect st))
| step_shotId_input st id :
    session_step st (commit st (shotId_input id)).

Inductive session_run : ChatState number -> ChatState number -> Prop :=
| run_refl st : session_run st st
| run_step st st' st'' :
    session_run st st' -> session_step st' st'' -> session_run st st''.

(** Successive observer passes, one per received message list. *)
Definition observer_passes (st : ChatState number)
    (lists : list (list (Message number))) : ChatState number :=
  fold_left observer_pass lists st.

(** The updates queued by successive passes, in order. *)
Fixpoint passes_actions (st : ChatState number) (lists : list (list (Message number)))
  : list (Action number) :=
  match lists with
  | [] => []
  | agentMessages :: rest =>
      (observe_messages (processedToolCalls st) agentMessages
       ++ passes_actions (observer_pass st agentMessages) rest)%list
  end.

Definition marks (id : string) (a : Action number) : bool :=
  match a with
  | MarkProcessed id' => String.eqb id' id
  | _ => false
  end.

(** How often the call [id] was dispatched: every dispatch queues exactly
    one [MarkProcessed id]. *)
Definition dispatches (id : string) (actions : list (Action number)) : nat :=
  length (List.filter (marks id) actions).

Definition is_SetCurrentShot (a : Action number) : bool :=
  match a with SetCurrentShot _ => true | _ => false end.

Definition is_HandleShotQuery (a : Action number) : bool :=
  match a with HandleShotQuery _ => true | _ => false end.

(** The observer dispatches the part: it is an output-available tool part
    that one of the two branches accepts. *)
Definition accepted (part : Part number) : bool :=
  match part with
  | TextPart _ => false
  | ToolInvocationPart inv =>
      let result := output_value inv in
      state_eqb (state inv) output_available
      && ((String.eqb (part_type inv) "tool-visualizeCurlingShot"
           && truthy (get result "success")
           && truthy (get result "visualization"))
          || (String.eqb (part_type inv) "tool-setShotId"
              && truthy (get result "success")
              && truthy (get result "updateShotId")))
  end.

(** The same, spelled out: the tool is one of the two the observer knows,
    [result.success] is truthy and so is the payload field of that tool. *)
Definition dispatch_succeeded (inv : ToolInvocation number) : Prop :=
  state inv = output_available
  /\ truthy (get (output_value inv) "success") = true
  /\ ((toolName inv = "visualizeCurlingShot"
       /\ truthy (get (output_value inv) "visualization") = true)
      \/ (toolName inv = "setShotId"
          /\ truthy (get (output_value inv) "updateShotId") = true)).

Definition part_id (part : Part number) : option string :=
  match part with
  | TextPart _ => None
  | ToolInvocationPart inv => Some (toolCallId inv)
  end.

(** The parts the effect visits, in order. *)
Definition visited_parts (agentMessages : list (Message number)) : list (Part number) :=
  flat_map (fun m => if role_eqb (role m) assistant then parts m else []) agentMessages.

(** Number of accepted parts carrying the call [id] in a message list. *)
Definition occurrences (id : string) (agentMessages : list (Message number)) : nat :=
  length (List.filter
            (fun p => accepted p
                      && match part_id p with
                         | Some id' => String.eqb id' id
                         | None => false
                         end)
            (visited_parts agentMessages)).

End Client.

(** ** A concrete number type for examples

    The doubles that are integers, and [NaN]: enough for shot identifiers,
    array lengths and whole-pixel stone coordinates. *)

Inductive IntegerNumber : Type := NaN | Int (z : Z).

#[export] Instance IntegerNumber_JsNumber : JsNumber IntegerNumber := {|
  num_truthy n := match n with NaN => false | Int z => negb (z =? 0)%Z end;
  num_toString n := match n with NaN => "NaN" | Int z => pretty z end;
  num_isNaN n := match n with NaN => true | Int _ => false end;
  num_of_nat n := Int (Z.of_nat n)
|}.

Module Examples.

Abbreviation V := (JsValue IntegerNumber).

Definition shot42 : VisualizeInput IntegerNumber :=
  mkVisualizeInput IntegerNumber (Int 42) "Niklas Edin" "SWE" "Draw"
    [mkStone IntegerNumber red (Int 10) (Int (-25));
     mkStone IntegerNumber yellow (Int (-40)) (Int 12)].

(** An output-available [visualizeCurlingShot] part for call "call-1". *)
Definition vizPart : Part IntegerNumber :=
  ToolInvocationPart
    (mkToolInvocation IntegerNumber "call-1" "visualizeCurlingShot" output_available
       JNull (Some (visualizeCurlingShot_execute shot42))).

(** An output-available [setShotId] part for call "call-2". *)
Definition setPart : Part IntegerNumber :=
  ToolInvocationPart
    (mkToolInvocation IntegerNumber "call-2" "setShotId" output_available
       JNull (Some (setShotId_execute (mkSetShotIdInput IntegerNumber (Int 150) None)))).

(** A [visualizeCurlingShot] invocation whose output is [{success: false}]. *)
Definition failedInvocation : ToolInvocation IntegerNumber :=
  mkToolInvocation IntegerNumber "call-3" "visualizeCurlingShot" output_available
    JNull (Some (JObj [("success", JBool false)])).

Definition failedPart : Part IntegerNumber := ToolInvocationPart failedInvocation.

(** An output-available [queryShotDetails] invocation. *)
Definition queryInvocation (out : V) : ToolInvocation IntegerNumber :=
  mkToolInvocation IntegerNumber "call-4" "queryShotDetails" output_available
    JNull (Some out).

Definition queryPart (out : V) : Part IntegerNumber :=
  ToolInvocationPart (queryInvocation out).

(** A model request left without output: an incomplete invocation. *)
Definition pendingPart (id : string) : Part IntegerNumber :=
  ToolInvocationPart
    (mkToolInvocation IntegerNumber id "queryDatabase" input_available JNull None).

(** The body [/api/shot] answers with for an existing shot. *)
Definition shotBody : V :=
  JObj [("success", JBool true);
        ("shot", JObj [("shot_id", JNum (Int 150)); ("player_name", JStr "Eve Muirhead")]);
        ("stones", JArr [])].

Definition assistantMessage (ps : list (Part IntegerNumber)) : Message IntegerNumber :=
  mkMessage IntegerNumber "m1" assistant ps None.

Definition userMessage (text : string) : Message IntegerNumber :=
  mkMessage IntegerNumber "m0" user [TextPart text] None.

Definition start : ChatState IntegerNumber := initialState.

(** A database in which no shot exists. *)
Definition emptyDb : D1Database IntegerNumber :=
  mkD1Database IntegerNumber
    (fun _ _ => Ok (mkD1Result IntegerNumber (Some []) JNull))
    (fun _ _ => Ok JNull).

(** A database whose every call throws. *)
Definition brokenDb : D1Database IntegerNumber :=
  mkD1Database IntegerNumber
    (fun _ _ => Throw (ThrownError "D1_ERROR: no such table: shots"))
    (fun _ _ => Throw (ThrownError "D1_ERROR: no such table: shots")).

(** A model that asks for [setShotId] on every step. *)
Definition eagerModel : LanguageModel IntegerNumber :=
  fun _ _ => mkModelOutput ""
               [mkToolCall "c" "setShotId" (JObj [("shotId", JNum (Int 42))])].

(** The registry of [tools.ts] as far as [setShotId] goes; no tool of the
    repository requires confirmation. *)
Definition registry : ToolSet IntegerNumber :=
  fun name =>
    if String.eqb name "setShotId"
    then Some (mkToolDefinition false
                 (Some (fun i => Ok (JObj [("success", JBool true);
                                           ("shotId", get i "shotId");
                                           ("updateShotId", JBool true)]))))
    else None.

End Examples.

(** ** Reading the tools' database calls *)

(** The parameters [queryDatabase] binds: [.bind(...params)] is used exactly
    for a non-empty parameter list. *)
Definition bound_params {number : Type} (params : option (list (JsValue number)))
  : option (list (JsValue number)) :=
  match params with
  | Some ps => if (0 <? length ps)%nat then Some ps else None
  | None => None
  end.

(** ** The worker's [/api/shot] endpoint ([server.ts], lines 128-222) *)

(** The two SQL texts of the [/api/shot] endpoint, character for character
    (they differ from those of [tools.ts] in their indentation). *)
Definition api_shotQuery : string :=
  "
          SELECT 
            s.id as shot_id,
            s.number as shot_number,
            s.color as shot_color,
            s.team as shot_team,
            s.player_name,
            s.type as shot_type,
            s.turn,
            s.percent_score,
            e.id as end_id,
            e.number as end_number,
            e.direction,
            e.color_hammer,
            e.score_red,
            e.score_yellow,
            g.id as game_id,
            g.session,
            g.name as game_name,
            g.sheet,
            g.type as game_type,
            g.start_date,
            g.start_time,
            g.team_red,
            g.team_yellow,
            g.final_score_red,
            g.final_score_yellow,
            ev.name as event_name,
            ev.start_date as event_start_date,
            ev.end_date as event_end_date
          FROM shots s
          JOIN ends e ON s.end_id = e.id
          JOIN games g ON e.game_id = g.id
          JOIN events ev ON g.event_id = ev.id
          WHERE s.id = ?
        ".

Definition api_stoneQuery : string :=
  "
          SELECT color, x, y
          FROM stone_positions
          WHERE shot_id = ?
          ORDER BY id
        ".

Inductive ResponseBody {number : Type} : Type :=
| JsonBody (v : JsValue number)     (* [Response.json(v, ...)] *)
| TextBody (text : string).         (* [new Response(text, ...)] *)
Arguments ResponseBody number : clear implicits.

Record Response {number : Type} : Type := mkResponse {
  status : nat;
  body : ResponseBody number
}.
Arguments Response number : clear implicits.

Section Worker.
Context {number : Type} `{JsNumber number}.

(** [Number(s)] on a string, the conversion the endpoint applies to its
    parameter. *)
Variable Number : string -> number.

(** The branch of [fetch] for [GET /api/shot] ([server.ts], lines 129-222),
    [shotId] being [url.searchParams.get("id")]. *)
Definition api_shot (env : Env number) (shotId : option string)
  : Eff number (Response number) :=
  match shotId with
  | None =>
      ret (mkResponse number 400 (JsonBody (failure "Valid shot ID required")))
  | Some shotId =>
      if negb (truthy (JStr shotId : JsValue number)) || num_isNaN (Number shotId) then
        ret (mkResponse number 400 (JsonBody (failure "Valid shot ID required")))
      else
        try_catch
          (match DB env with
           | None =>
               ret (mkResponse number 500 (JsonBody (failure "Database not configured")))
           | Some db =>
               let! shotResult :=
                 db_first db api_shotQuery (Some [JNum (Number shotId)]) in
               if negb (truthy shotResult) then
                 ret (mkResponse number 404
                        (JsonBody (failure ("Shot with ID " +:+ shotId +:+ " not found"))))
               else
                 let! stoneResult :=
                   db_all db api_stoneQuery (Some [JNum (Number shotId)]) in
                 ret (mkResponse number 200
                        (JsonBody
                           (JObj [("success", JBool true);
                                  ("shot", shotResult);
                                  ("stones", JArr (match results stoneResult with
                                                   | Some rows => rows
                                                   | None => []
                                                   end))])))
           end)
          (fun error =>
             ret (mkResponse number 500 (JsonBody (failure "Database query failed"))))
  end.

(** The database answers the endpoint's SQL texts as it answers the
    tool's, for the lookup of [shotId]. *)
Definition answers_alike (db : D1Database number) (shotId : number) : Prop :=
  d1_first db api_shotQuery (Some [JNum shotId]) = d1_first db shotQuery (Some [JNum shotId])
  /\ d1_all db api_stoneQuery (Some [JNum shotId]) = d1_all db stoneQuery (Some [JNum shotId]).

End Worker.

(** ** More of the client component *)

(** Every code unit of the string is white space. *)
Fixpoint all_whitespace (s : string) : bool :=
  match s with
  | EmptyString => true
  | String c s' => isWhiteSpace c && all_whitespace s'
  end.

Fixpoint drop_chars (n : nat) (s : string) : string :=
  match n, s with
  | O, _ => s
  | S _, EmptyString => EmptyString
  | S n', String _ s' => drop_chars n' s'
  end.

(** [s.replace(pattern, "")] for a string pattern: the first occurrence of
    [pattern] is removed. *)
Fixpoint remove_first (pattern s : string) : string :=
  if String.prefix pattern s then drop_chars (String.length pattern) s
  else match s with
       | EmptyString => EmptyString
       | String c s' => String c (remove_first pattern s')
       end.

(** [toolsRequiringConfirmation] ([server.ts], lines 290-292). *)
Definition toolsRequiringConfirmation : list string := [].

(** What [handleAgentSubmit] does when it does not return early. *)
Record Submission : Type := mkSubmission {
  sent_text : string;       (* the text part of the message sent *)
  next_agentInput : string  (* [setAgentInput("")] *)
}.

(** [handleAgentSubmit] ([server.ts], lines 331-351): [None] when it
    returns before sending. *)
Definition handleAgentSubmit (agentInput : string) : option Submission :=
  if String.eqb (trim agentInput) "" then None
  else Some (mkSubmission agentInput "").

Section ClientMore.
Context {number : Type} `{JsNumber number}.

(** [part.type.replace("tool-", "")], the tool name the component derives
    from a tool part (lines 511, 717, 735 and 742). *)
Definition derived_toolName (inv : ToolInvocation number) : string :=
  remove_first "tool-" (part_type inv).

(** The predicate of [pendingToolCallConfirmation] ([server.ts], lines
    504-514), for a list of tools that require confirmation. *)
Definition pending_confirmation (required : list string)
    (agentMessages : list (Message number)) : bool :=
  existsb
    (fun m =>
       existsb
         (fun part =>
            match part with
            | TextPart _ => false
            | ToolInvocationPart inv =>
                state_eqb (state inv) input_available
                && existsb (String.eqb (derived_toolName inv)) required
            end)
         (parts m))
    agentMessages.

Definition pendingToolCallConfirmation (agentMessages : list (Message number)) : bool :=
  pending_confirmation toolsRequiringConfirmation agentMessages.

(** [disabled] of the submit button (lines 818-820). *)
Definition submit_disabled (agentMessages : list (Message number)) (agentInput : string)
  : bool :=
  pendingToolCallConfirmation agentMessages || String.eqb (trim agentInput) "".

(** The parts an observer pass can act on: the output-available tool parts
    of assistant messages. *)
Definition dispatchable (part : Part number) : bool :=
  match part with
  | TextPart _ => false
  | ToolInvocationPart inv => state_eqb (state inv) output_available
  end.

Definition only_dispatchable (agentMessages : list (Message number))
  : list (Message number) :=
  map (fun m => with_parts m (List.filter dispatchable (parts m)))
      (List.filter (fun m => role_eqb (role m) assistant) agentMessages).

(** A number interface in which array lengths convert as in JavaScript:
    a positive length is truthy. *)
Definition lengths_truthy : Prop :=
  forall n : nat, 0 < n -> num_truthy (num_of_nat n) = true.

End ClientMore.

(** Reading a run of decimal digits, for examples of [Number(s)]. *)
Fixpoint digits_value (acc : Z) (s : string) : option Z :=
  match s with
  | EmptyString => Some acc
  | String c s' =>
      let n := nat_of_ascii c in
      if ((48 <=? n)%nat && (n <=? 57)%nat)
      then digits_value (10 * acc + Z.of_nat (n - 48)) s'
      else None
  end.

Module Fixtures.

(** [Number(s)] on the strings that are runs of digits (the empty string
    converts to 0); anything else is [NaN] here. *)
Definition NumberOfDigits (s : string) : IntegerNumber :=
  match digits_value 0 s with
  | Some z => Int z
  | None => NaN
  end.

(** A database that knows shot 150 and one stone of it, under both
    spellings of the SQL. *)
Definition curlingDb : D1Database IntegerNumber :=
  mkD1Database IntegerNumber
    (fun _ _ =>
       Ok (mkD1Result IntegerNumber
             (Some [JObj [("color", JStr "red"); ("x", JNum (Int 3)); ("y", JNum (Int 4))]])
             JNull))
    (fun _ params =>
       match params with
       | Some [JNum (Int 150)] =>
           Ok (JObj [("shot_id", JNum (Int 150)); ("player_name", JStr "Eve Muirhead")])
       | _ => Ok JNull
       end).

Definition curlingEnv : Env IntegerNumber := mkEnv IntegerNumber (Some curlingDb).

(** A tool part awaiting its output. *)
Definition awaitingInvocation : ToolInvocation IntegerNumber :=
  mkToolInvocation IntegerNumber "call-9" "setShotId" input_available JNull None.

End Fixtures.

(** * Properties *)

(** ** Strings *)

Lemma trimEnd_cons (c : ascii) (s : string) :
  isWhiteSpace c = false -> trimEnd (String c s) = String c (trimEnd s).
Proof.
  intros Hc. simpl. destruct (trimEnd s); [rewrite Hc|]; reflexivity.
Qed.

(** A query that begins "selection" passes the prefix test, whatever
    follows. *)
Lemma selection_passes_guard (rest : string) :
  startsWith (toLowerCase (trim ("selection" +:+ rest))) "select" = true.
Proof.
  unfold trim. cbv beta iota delta [String.append]. cbn [trimStart].
  change (isWhiteSpace "s") with false. cbv iota.
  do 6 (rewrite trimEnd_cons by reflexivity).
  cbn [toLowerCase].
  generalize (toLowerCase (trimEnd (String "i" (String "o" (String "n" rest))))).
  intros tail. destruct tail; reflexivity.
Qed.

(** ** The tools *)

Section ToolProperties.
Context {number : Type} `{JsNumber number}.

#[local] Abbreviation JsValue := (JsValue number).

(** C10.  [queryDatabase.execute] guards the database behind the
    SELECT-prefix test: when the trimmed, lower-cased query does not start
    with "select" the tool returns the structured failure and makes no
    database call; when it does, the original query is submitted to the
    bound database, once, with [.bind] exactly when parameters were given;
    and a query beginning "selection" is among those submitted. *)
Theorem queryDatabase_select_guard (env : Env number) (input : QueryDatabaseInput number) :
  (startsWith (toLowerCase (trim (qd_query input))) "select" = false ->
   queryDatabase_execute env input
   = ([], Ok (failure "Only SELECT queries are allowed with this tool. Use querySQLiteDatabase for other operations.")))
  /\ (startsWith (toLowerCase (trim (qd_query input))) "select" = true ->
      forall db, DB env = Some db ->
      calls_of (queryDatabase_execute env input)
      = [mkD1Call number (qd_query input)
           (match qd_params input with
            | Some ps => if (0 <? length ps)%nat then Some ps else None
            | None => None
            end)
           MethodAll])
  /\ (forall db rest,
      calls_of (queryDatabase_execute (mkEnv number (Some db))
                  (mkQueryDatabaseInput number ("selection" +:+ rest) None))
      = [mkD1Call number ("selection" +:+ rest) None MethodAll]).
Proof.
  assert (Hsubmit : forall (e : Env number) (i : QueryDatabaseInput number) db,
    startsWith (toLowerCase (trim (qd_query i))) "select" = true ->
    DB e = Some db ->
    calls_of (queryDatabase_execute e i)
    = [mkD1Call number (qd_query i)
         (match qd_params i with
          | Some ps => if (0 <? length ps)%nat then Some ps else None
          | None => None
          end)
         MethodAll]).
  { intros e i db Hguard Hdb. unfold queryDatabase_execute.
    rewrite Hguard, Hdb. simpl negb. cbv iota.
    destruct (qd_params i) as [ps|].
    - destruct (0 <? length ps)%nat; unfold db_all, bind;
        match goal with
        | |- context [d1_all ?d ?q ?p] => destruct (d1_all d q p)
        end; reflexivity.
    - unfold db_all, bind.
      match goal with
      | |- context [d1_all ?d ?q ?p] => destruct (d1_all d q p)
      end; reflexivity. }
  split; [|split].
  - intros Hguard. unfold queryDatabase_execute. rewrite Hguard. reflexivity.
  - intros Hguard db Hdb. apply (Hsubmit env input db Hguard Hdb).
  - intros db rest.
    apply (Hsubmit (mkEnv number (Some db))
             (mkQueryDatabaseInput number ("selection" +:+ rest) None) db);
      [apply selection_passes_guard | reflexivity].
Qed.

(** C3.  [queryShotDetails.execute] never lets an exception escape: it
    always settles with a returned value.  When the binding is absent,
    when the record is absent and when the lookup throws, that value is a
    structured [{success: false, error}]; for an absent record the error
    text is "Shot with ID <id> not found".  The observer leaves the whole
    client state as it was on any [queryShotDetails] output. *)
Theorem queryShotDetails_failure_contained (env : Env number) (shotId : number) :
  (exists out, outcome_of (queryShotDetails_execute env shotId) = Ok out)
  /\ (binding_absent env ->
      queryShotDetails_execute env shotId
      = ([], Ok (failure "Database not configured. Please set up D1 binding.")))
  /\ (record_absent env shotId ->
      outcome_of (queryShotDetails_execute env shotId)
      = Ok (failure ("Shot with ID " +:+ num_toString shotId +:+ " not found")))
  /\ (forall e, lookup_throws env shotId e ->
      outcome_of (queryShotDetails_execute env shotId)
      = Ok (failure (error_text e)))
  /\ (forall out st messageId callId callInput created,
      outcome_of (queryShotDetails_execute env shotId) = Ok out ->
      observer_pass st
        [mkMessage number messageId assistant
           [ToolInvocationPart
              (mkToolInvocation number callId "queryShotDetails" output_available
                 callInput (Some out))]
           created]
      = st).
Proof.
  split; [|split; [|split; [|split]]].
  - unfold queryShotDetails_execute.
    destruct (DB env) as [db|]; [|eexists; reflexivity].
    unfold db_first, db_all, bind.
    destruct (d1_first db shotQuery (Some [JNum shotId])) as [row|e].
    + destruct (truthy row); simpl negb; cbv iota.
      * destruct (d1_all db stoneQuery (Some [JNum shotId])) as [r|e];
          eexists; reflexivity.
      * eexists; reflexivity.
    + eexists; reflexivity.
  - intros Habsent. unfold queryShotDetails_execute. rewrite Habsent. reflexivity.
  - intros (db & row & Hdb & Hrow & Hfalsy).
    unfold queryShotDetails_execute, db_first, bind.
    rewrite Hdb, Hrow, Hfalsy. reflexivity.
  - intros e (db & Hdb & Hthrow).
    unfold queryShotDetails_execute, db_first, db_all, bind. rewrite Hdb.
    destruct Hthrow as [Hfirst | (row & Hfirst & Htruthy & Hall)].
    + rewrite Hfirst. reflexivity.
    + rewrite Hfirst, Htruthy. simpl negb. cbv iota. rewrite Hall. reflexivity.
  - intros out st messageId callId callInput created _.
    destruct st as [cs sid processed].
    unfold observer_pass, observe_messages, observe_message. simpl.
    destruct (decide (callId ∈ processed)); reflexivity.
Qed.

End ToolProperties.

(** ** The bounded step loop *)

Section StepLoopProperties.
Context {number : Type}.
Variable tools : ToolSet number.
Variable model : LanguageModel number.
Variable history : list (Message number).

Lemma step_loop_bounded (fuel : nat) :
  forall steps : list (Step number),
    length steps < 10 ->
    10 - length steps <= fuel ->
    exists steps' reason,
      step_loop (stepCountIs 10) tools model history fuel steps = Some (steps', reason)
      /\ length steps < length steps' <= 10.
Proof.
  induction fuel as [|fuel IH]; intros steps Hlen Hfuel; [lia|].
  cbn [step_loop].
  set (out := model history steps).
  set (res := map (fun c => (c, run_tool tools c)) (mo_toolCalls out)).
  assert (Hsnoc : length (steps ++ [mkStep out res]) = S (length steps))
    by (rewrite length_app; simpl; lia).
  destruct (mo_toolCalls out) as [|c cs].
  - eexists _, _. split; [reflexivity|]. lia.
  - destruct (existsb is_pending res).
    + eexists _, _. split; [reflexivity|]. lia.
    + unfold stepCountIs.
      destruct (Nat.eqb_spec (length (steps ++ [mkStep out res])) 10) as [Heq|Hne].
      * eexists _, _. split; [reflexivity|]. lia.
      * destruct (IH (steps ++ [mkStep out res])) as (steps' & reason & Hrun & Hb);
          [lia | lia |].
        exists steps', reason. split; [exact Hrun | lia].
Qed.

Lemma step_loop_exhausts (fuel : nat) :
  always_requests tools model history ->
  forall steps : list (Step number),
    length steps < 10 ->
    10 - length steps <= fuel ->
    exists steps',
      step_loop (stepCountIs 10) tools model history fuel steps
      = Some (steps', StepBoundReached)
      /\ length steps' = 10.
Proof.
  intros Halways.
  induction fuel as [|fuel IH]; intros steps Hlen Hfuel; [lia|].
  cbn [step_loop].
  destruct (Halways steps) as [Hcalls Hpending].
  set (out := model history steps) in *.
  set (res := map (fun c => (c, run_tool tools c)) (mo_toolCalls out)) in *.
  assert (Hsnoc : length (steps ++ [mkStep out res]) = S (length steps))
    by (rewrite length_app; simpl; lia).
  destruct (mo_toolCalls out) as [|c cs] eqn:Hout; [congruence|].
  rewrite Hpending. unfold stepCountIs.
  destruct (Nat.eqb_spec (length (steps ++ [mkStep out res])) 10) as [Heq|Hne].
  - eexists. split; [reflexivity | exact Heq].
  - apply IH; lia.
Qed.

(** More fuel never changes a result. *)
Lemma step_loop_fuel_mono (stopWhen : list (Step number) -> bool) (fuel : nat) :
  forall fuel' steps result,
    fuel <= fuel' ->
    step_loop stopWhen tools model history fuel steps = Some result ->
    step_loop stopWhen tools model history fuel' steps = Some result.
Proof.
  induction fuel as [|fuel IH]; intros fuel' steps result Hle Hrun; [discriminate|].
  destruct fuel' as [|fuel']; [lia|].
  cbn [step_loop] in *.
  destruct (mo_toolCalls (model history steps)); [exact Hrun|].
  destruct (existsb _ _); [exact Hrun|].
  destruct (stopWhen _); [exact Hrun|].
  apply IH; [lia | exact Hrun].
Qed.

(** C2.  With [stopWhen: stepCountIs(10)] the step loop of a turn returns
    after at most 10 steps, for every history, tool set and model: ten
    units of fuel always suffice and more fuel changes nothing.  A model
    that requests another tool call on every step is stopped after exactly
    10 steps, and the turn finishes normally (by the step bound). *)
Theorem streamText_at_most_10_steps (fuel : nat) :
  10 <= fuel ->
  (exists steps reason,
      streamText tools model history fuel = Some (steps, reason)
      /\ 1 <= length steps <= 10)
  /\ streamText tools model history fuel = streamText tools model history 10
  /\ (always_requests tools model history ->
      exists steps,
        streamText tools model history fuel = Some (steps, StepBoundReached)
        /\ length steps = 10).
Proof.
  intros Hfuel. unfold streamText.
  split; [|split].
  - destruct (step_loop_bounded fuel []) as (steps & reason & Hrun & Hb);
      [simpl; lia | simpl; lia |].
    exists steps, reason. split; [exact Hrun | simpl in Hb; lia].
  - destruct (step_loop_bounded 10 []) as (steps & reason & Hrun & _);
      [simpl; lia | simpl; lia |].
    rewrite Hrun. apply (step_loop_fuel_mono _ 10); [exact Hfuel | exact Hrun].
  - intros Halways. apply step_loop_exhausts; [exact Halways | simpl; lia | simpl; lia].
Qed.

End StepLoopProperties.

(** ** ClientResultObserver *)

Section ClientProperties.
Context {number : Type} `{JsNumber number}.

#[local] Abbreviation JsValue := (JsValue number).
#[local] Abbreviation processed := (@processedToolCalls number).

(** *** The tool name behind [part.type] *)

Lemma part_type_visualize (inv : ToolInvocation number) :
  String.eqb (part_type inv) "tool-visualizeCurlingShot"
  = String.eqb (toolName inv) "visualizeCurlingShot".
Proof. reflexivity. Qed.

Lemma part_type_setShotId (inv : ToolInvocation number) :
  String.eqb (part_type inv) "tool-setShotId"
  = String.eqb (toolName inv) "setShotId".
Proof. reflexivity. Qed.

Lemma state_eqb_eq (a b : ToolInvocationState) : state_eqb a b = true <-> a = b.
Proof. destruct a, b; simpl; split; intros; congruence. Qed.

Lemma accepted_succeeded (inv : ToolInvocation number) :
  accepted (ToolInvocationPart inv) = true <-> dispatch_succeeded inv.
Proof.
  unfold accepted, dispatch_succeeded.
  rewrite part_type_visualize, part_type_setShotId.
  rewrite andb_true_iff, orb_true_iff, !andb_true_iff, state_eqb_eq, !String.eqb_eq.
  tauto.
Qed.

(** *** What one part queues *)

(** The three shapes of [observe_part]'s result. *)
Lemma observe_part_cases (P : gset string) (inv : ToolInvocation number) :
  let part := ToolInvocationPart inv in
  (observe_part P part = []
   /\ (accepted part = false \/ toolCallId inv ∈ P))
  \/ ((toolCallId inv ∉ P) /\ accepted part = true
      /\ toolName inv = "visualizeCurlingShot"
      /\ exists v, observe_part P part = [SetCurrentShot v; MarkProcessed (toolCallId inv)])
  \/ ((toolCallId inv ∉ P) /\ accepted part = true
      /\ toolName inv = "setShotId"
      /\ observe_part P part
         = [SetShotId (get (output_value inv) "shotId");
            HandleShotQuery (get (output_value inv) "shotId");
            MarkProcessed (toolCallId inv)]).
Proof.
  cbv zeta. unfold observe_part, accepted.
  rewrite part_type_visualize, part_type_setShotId.
  destruct (state_eqb (state inv) output_available); [|left; split; [reflexivity | left; reflexivity]].
  destruct (decide (toolCallId inv ∈ P)) as [Hin|Hnot];
    [left; split; [reflexivity | right; exact Hin]|].
  destruct (String.eqb_spec (toolName inv) "visualizeCurlingShot") as [Hviz|Hviz].
  - rewrite Hviz. change (String.eqb "visualizeCurlingShot" "setShotId") with false.
    cbn [andb orb app].
    destruct (truthy (get (output_value inv) "success"));
      [|left; split; [reflexivity | left; reflexivity]].
    destruct (truthy (get (output_value inv) "visualization"));
      [|left; split; [reflexivity | left; reflexivity]].
    right. left. cbn [andb orb app]. rewrite ?app_nil_r.
    repeat split; [exact Hnot | eexists; reflexivity].
  - cbn [andb orb app].
    destruct (String.eqb_spec (toolName inv) "setShotId") as [Hset|Hset];
      [|left; split; [reflexivity | left; reflexivity]].
    cbn [andb orb app].
    destruct (truthy (get (output_value inv) "success"));
      [|left; split; [reflexivity | left; reflexivity]].
    destruct (truthy (get (output_value inv) "updateShotId"));
      [|left; split; [reflexivity | left; reflexivity]].
    right. right. cbn [andb orb app]. repeat split; [exact Hnot | exact Hset].
Qed.

(** *** Committing queued updates *)

Lemma apply_action_mono (st : ChatState number) (a : Action number) :
  processed st ⊆ processed (apply_action st a).
Proof. destruct a; simpl; set_solver. Qed.

Lemma commit_app (st : ChatState number) (a b : list (Action number)) :
  commit st (a ++ b) = commit (commit st a) b.
Proof. unfold commit. apply fold_left_app. Qed.

Lemma commit_mono (actions : list (Action number)) :
  forall st : ChatState number, processed st ⊆ processed (commit st actions).
Proof.
  induction actions as [|a actions IH]; intros st; simpl; [set_solver|].
  etransitivity; [apply (apply_action_mono st a) | apply IH].
Qed.

(** The set after a commit holds what it held before and the marked ids,
    nothing else. *)
Lemma commit_processed (actions : list (Action number)) :
  forall (st : ChatState number) (id : string),
    id ∈ processed (commit st actions)
    <-> id ∈ processed st \/ In (MarkProcessed id) actions.
Proof.
  induction actions as [|a actions IH]; intros st id; simpl.
  - tauto.
  - rewrite IH. destruct a; simpl; try (intuition congruence).
    rewrite elem_of_union, elem_of_singleton.
    split; [intros [[->|Hin]|Hin] | intros [Hin|[Heq|Hin]]]; auto.
    injection Heq as ->. auto.
Qed.

Lemma observer_pass_mono (st : ChatState number) (agentMessages : list (Message number)) :
  processed st ⊆ processed (observer_pass st agentMessages).
Proof. apply commit_mono. Qed.

(** *** Counting dispatches *)

Lemma observe_messages_visited (P : gset string) (agentMessages : list (Message number)) :
  observe_messages P agentMessages
  = flat_map (observe_part P) (visited_parts agentMessages).
Proof.
  unfold observe_messages, visited_parts.
  induction agentMessages as [|m ms IH]; simpl; [reflexivity|].
  rewrite flat_map_app, IH. unfold observe_message.
  destruct (role_eqb (role m) assistant); reflexivity.
Qed.

Lemma dispatches_app (id : string) (a b : list (Action number)) :
  dispatches id (a ++ b) = dispatches id a + dispatches id b.
Proof. unfold dispatches. rewrite List.filter_app, length_app. reflexivity. Qed.

Lemma dispatches_positive (id : string) (actions : list (Action number)) :
  0 < dispatches id actions <-> In (MarkProcessed id) actions.
Proof.
  unfold dispatches. induction actions as [|a actions IH]; simpl.
  - split; [lia | tauto].
  - destruct (marks id a) eqn:Hm.
    + destruct a; simpl in Hm; try discriminate.
      apply String.eqb_eq in Hm. subst. simpl. split; [auto | lia].
    + rewrite IH. split; [auto|]. intros [Heq|Hin]; [|exact Hin].
      subst a. simpl in Hm. rewrite String.eqb_refl in Hm. discriminate.
Qed.

(** A part queues one dispatch of [id] when it is an accepted part of that
    call and [id] is not in the captured set, and none otherwise. *)
Lemma dispatches_observe_part (P : gset string) (part : Part number) (id : string) :
  dispatches id (observe_part P part)
  = if decide (id ∈ P) then 0
    else if accepted part
            && match part_id part with
               | Some id' => String.eqb id' id
               | None => false
               end
         then 1 else 0.
Proof.
  destruct part as [text|inv]; [simpl; destruct (decide _); reflexivity|].
  cbn [part_id].
  destruct (observe_part_cases P inv)
    as [[-> [Hacc|Hin]] | [(Hnot & Hacc & _ & v & ->) | (Hnot & Hacc & _ & ->)]].
  - rewrite Hacc. destruct (decide _); reflexivity.
  - destruct (decide (id ∈ P)) as [_|Hid]; [reflexivity|].
    destruct (String.eqb_spec (toolCallId inv) id) as [Heq|_];
      [rewrite Heq in Hin; contradiction|].
    rewrite andb_false_r. reflexivity.
  - rewrite Hacc. unfold dispatches. simpl.
    destruct (String.eqb_spec (toolCallId inv) id) as [Heq|_];
      destruct (decide (id ∈ P)); try reflexivity.
    rewrite Heq in Hnot. contradiction.
  - rewrite Hacc. unfold dispatches. simpl.
    destruct (String.eqb_spec (toolCallId inv) id) as [Heq|_];
      destruct (decide (id ∈ P)); try reflexivity.
    rewrite Heq in Hnot. contradiction.
Qed.

Lemma dispatches_observe_messages (P : gset string)
    (agentMessages : list (Message number)) (id : string) :
  dispatches id (observe_messages P agentMessages)
  = if decide (id ∈ P) then 0 else occurrences id agentMessages.
Proof.
  rewrite observe_messages_visited. unfold occurrences.
  induction (visited_parts agentMessages) as [|part rest IH]; simpl.
  - destruct (decide _); reflexivity.
  - rewrite dispatches_app, IH, dispatches_observe_part.
    destruct (decide (id ∈ P)); [reflexivity|].
    destruct (accepted part && _); simpl; reflexivity.
Qed.

(** Once [id] is in the set no later pass dispatches it. *)
Lemma processed_never_dispatched (lists : list (list (Message number))) (id : string) :
  forall st : ChatState number,
    id ∈ processed st -> dispatches id (passes_actions st lists) = 0.
Proof.
  induction lists as [|agentMessages rest IH]; intros st Hin; simpl; [reflexivity|].
  rewrite dispatches_app, dispatches_observe_messages.
  destruct (decide (id ∈ processedToolCalls st)) as [_|Hnot]; [|contradiction].
  rewrite IH; [reflexivity|]. apply observer_pass_mono. exact Hin.
Qed.

(** A pass in which no visited part queues anything changes nothing. *)
Lemma observer_pass_skips (st : ChatState number) (agentMessages : list (Message number)) :
  (forall part, In part (visited_parts agentMessages) ->
                observe_part (processed st) part = []) ->
  observer_pass st agentMessages = st.
Proof.
  intros Hskip. unfold observer_pass. rewrite observe_messages_visited.
  induction (visited_parts agentMessages) as [|part rest IH]; simpl; [reflexivity|].
  rewrite (Hskip part) by (left; reflexivity). simpl.
  apply IH. intros part' Hin. apply Hskip. right. exact Hin.
Qed.

Lemma observe_messages_snoc (P : gset string) (earlier : list (Message number))
    (m : Message number) :
  observe_messages P (earlier ++ [m])
  = observe_messages P earlier ++ observe_message P m.
Proof.
  unfold observe_messages. rewrite flat_map_app. simpl.
  rewrite app_nil_r. reflexivity.
Qed.

Lemma observe_message_snoc (P : gset string) (messageId : string)
    (before : list (Part number)) (part : Part number) (created : option string) :
  observe_message P (mkMessage number messageId assistant (before ++ [part]) created)
  = flat_map (observe_part P) before ++ observe_part P part.
Proof.
  unfold observe_message. simpl. rewrite flat_map_app. simpl.
  rewrite app_nil_r. reflexivity.
Qed.

Lemma visited_single (messageId : string) (part : Part number) (created : option string) :
  visited_parts [mkMessage number messageId assistant [part] created] = [part].
Proof. reflexivity. Qed.

(** *** The claims about the observer *)

(** Deduplication across passes.  A call not yet in ProcessedCallSet that
    the received list presents in accepted output-available parts is in
    ProcessedCallSet after the pass over that list, and no later pass, over
    whatever lists, dispatches it again; the dispatches of the first pass
    are counted by [occurrences] (the membership test reads the set captured
    when the pass began). *)
Theorem dispatched_once_across_passes (st : ChatState number)
    (first : list (Message number)) (later : list (list (Message number)))
    (id : string) :
  id ∉ processed st ->
  1 <= occurrences id first ->
  dispatches id (passes_actions st (first :: later)) = occurrences id first
  /\ id ∈ processed (observer_pass st first)
  /\ dispatches id (passes_actions (observer_pass st first) later) = 0.
Proof.
  intros Hnew Hocc.
  assert (Hfirst : dispatches id (observe_messages (processed st) first)
                   = occurrences id first).
  { rewrite dispatches_observe_messages.
    destruct (decide (id ∈ processedToolCalls st)); [contradiction | reflexivity]. }
  assert (Hmarked : id ∈ processed (observer_pass st first)).
  { apply (proj2 (commit_processed _ st id)). right.
    apply (proj1 (dispatches_positive id _)). lia. }
  assert (Hlater : dispatches id (passes_actions (observer_pass st first) later) = 0)
    by (apply processed_never_dispatched; exact Hmarked).
  split; [|split; assumption].
  cbn [passes_actions]. rewrite dispatches_app, Hfirst, Hlater. lia.
Qed.

(** C5.  [visualizeCurlingShot.execute] returns [success: true] and a
    [visualization] that echoes the five input fields; and the observer,
    meeting that output in an output-available part of a call it has not
    processed, replaces the visualization state by the call's stones and the
    shot info rebuilt from player, team, shotType and shotId, whatever the
    state held before and whatever the pass visited earlier. *)
Theorem visualizeCurlingShot_replaces_state (input : VisualizeInput number) :
  get (visualizeCurlingShot_execute input) "success" = JBool true
  /\ get (visualizeCurlingShot_execute input) "visualization"
     = JObj [("shotId", JNum (vi_shotId input));
             ("player", JStr (vi_player input));
             ("team", JStr (vi_team input));
             ("shotType", JStr (vi_shotType input));
             ("stones", JArr (map stone_value (vi_stones input)))]
  /\ forall (st : ChatState number) callId callInput earlier messageId before created,
       callId ∉ processed st ->
       let part :=
         ToolInvocationPart
           (mkToolInvocation number callId "visualizeCurlingShot" output_available
              callInput (Some (visualizeCurlingShot_execute input))) in
       let st' :=
         observer_pass st
           (earlier ++ [mkMessage number messageId assistant (before ++ [part]) created]) in
       currentShot st'
       = JObj [("stones", JArr (map stone_value (vi_stones input)));
               ("shotInfo",
                 JObj [("player", JStr (vi_player input));
                       ("team", JStr (vi_team input));
                       ("type", JStr (vi_shotType input));
                       ("shotId", JNum (vi_shotId input))])]
       /\ callId ∈ processed st'.
Proof.
  split; [reflexivity | split; [reflexivity|]].
  intros st callId callInput earlier messageId before created Hnew part st'.
  subst st'. unfold observer_pass.
  rewrite observe_messages_snoc, observe_message_snoc, !commit_app.
  assert (Hpart : observe_part (processedToolCalls st) part
          = [SetCurrentShot
               (JObj [("stones", JArr (map stone_value (vi_stones input)));
                      ("shotInfo",
                        JObj [("player", JStr (vi_player input));
                              ("team", JStr (vi_team input));
                              ("type", JStr (vi_shotType input));
                              ("shotId", JNum (vi_shotId input))])]);
             MarkProcessed callId]).
  { subst part. unfold observe_part. cbn [state state_eqb toolCallId].
    destruct (decide (callId ∈ processedToolCalls st)); [contradiction | reflexivity]. }
  rewrite Hpart. split; [reflexivity|].
  apply (proj2 (commit_processed _ _ callId)).
  right. right. left. reflexivity.
Qed.

(** C6.  [setShotId.execute] returns [success: true], the shot id and
    [updateShotId: true]; the observer, meeting that output in an
    output-available part of a call it has not processed, sets the tracked
    shot identifier to that id, starts exactly one [handleShotQuery] keyed
    by it and marks the call; and a fetch that settles with a successful
    body (truthy [success], [shot] and [stones]) replaces the visualization
    state by that body. *)
Theorem setShotId_updates_and_fetches (input : SetShotIdInput number) :
  (get (setShotId_execute input) "success" = JBool true
   /\ get (setShotId_execute input) "shotId" = JNum (ss_shotId input)
   /\ get (setShotId_execute input) "updateShotId" = JBool true)
  /\ (forall (st : ChatState number) callId callInput messageId created,
        callId ∉ processed st ->
        let part :=
          ToolInvocationPart
            (mkToolInvocation number callId "setShotId" output_available
               callInput (Some (setShotId_execute input))) in
        let st' :=
          observer_pass st [mkMessage number messageId assistant [part] created] in
        observe_part (processed st) part
        = [SetShotId (JNum (ss_shotId input));
           HandleShotQuery (JNum (ss_shotId input));
           MarkProcessed callId]
        /\ shotId st' = JNum (ss_shotId input)
        /\ currentShot st' = currentShot st
        /\ processed st' = {[callId]} ∪ processed st)
  /\ (forall (st : ChatState number) (id data : JsValue),
        truthy (get data "success") = true ->
        truthy (get data "shot") = true ->
        truthy (get data "stones") = true ->
        handleShotQuery_settled id (Ok data) = [SetCurrentShot data]
        /\ currentShot (commit st (handleShotQuery_settled id (Ok data))) = data).
Proof.
  split; [repeat split; reflexivity | split].
  - intros st callId callInput messageId created Hnew part st'.
    assert (Hpart : observe_part (processedToolCalls st) part
            = [SetShotId (JNum (ss_shotId input));
               HandleShotQuery (JNum (ss_shotId input));
               MarkProcessed callId]).
    { subst part. unfold observe_part. cbn [state state_eqb toolCallId].
      destruct (decide (callId ∈ processedToolCalls st)); [contradiction | reflexivity]. }
    split; [exact Hpart|].
    subst st'. unfold observer_pass, observe_messages, observe_message.
    cbn [flat_map role role_eqb parts]. rewrite !app_nil_r, Hpart.
    repeat split; reflexivity.
  - intros st id data Hsuccess Hshot Hstones.
    assert (Hsettled : handleShotQuery_settled id (Ok data) = [SetCurrentShot data]).
    { unfold handleShotQuery_settled.
      destruct data; try (simpl in Hsuccess; discriminate).
      cbn [get_strict]. rewrite Hsuccess, Hshot, Hstones. reflexivity. }
    rewrite Hsettled. split; reflexivity.
Qed.

(** C7.  ProcessedCallSet only grows: a pass ends with a superset of the
    set it began with; every state update either leaves the set alone or
    adds one call ID to it; and so does every run of the session. *)
Theorem processedToolCalls_only_grows :
  (forall (st : ChatState number) agentMessages,
      processed st ⊆ processed (observer_pass st agentMessages))
  /\ (forall (st : ChatState number) a,
        processed (apply_action st a) = processed st
        \/ exists id, a = MarkProcessed id
                      /\ processed (apply_action st a) = {[id]} ∪ processed st)
  /\ (forall st st' : ChatState number,
        session_run st st' -> processed st ⊆ processed st').
Proof.
  split; [|split].
  - intros st agentMessages. apply observer_pass_mono.
  - intros st a. destruct a; simpl; eauto.
  - intros st st' Hrun. induction Hrun as [st|st st' st'' _ IH Hstep]; [set_solver|].
    etransitivity; [exact IH|].
    destruct Hstep; apply commit_mono.
Qed.

(** C8.  A tool part whose tool is neither [visualizeCurlingShot] nor
    [setShotId] queues nothing, whatever its state and output, and a pass
    over it leaves the visualization state, the shot identifier and
    ProcessedCallSet as they were. *)
Theorem unrecognized_tool_is_ignored (inv : ToolInvocation number) :
  toolName inv <> "visualizeCurlingShot" ->
  toolName inv <> "setShotId" ->
  (forall P, observe_part P (ToolInvocationPart inv) = [])
  /\ (forall (st : ChatState number) messageId created,
        observer_pass st
          [mkMessage number messageId assistant [ToolInvocationPart inv] created]
        = st).
Proof.
  intros Hviz Hset.
  assert (Hnone : forall P, observe_part P (ToolInvocationPart inv) = []).
  { intros P.
    destruct (observe_part_cases P inv)
      as [[Hq _] | [(_ & _ & Hname & _) | (_ & _ & Hname & _)]];
      [exact Hq | contradiction | contradiction]. }
  split; [exact Hnone|].
  intros st messageId created. apply observer_pass_skips.
  rewrite visited_single. intros part [<-|[]]. apply Hnone.
Qed.

(** C9.  A call ID enters ProcessedCallSet in a pass only through a
    visited part of that call whose dispatch succeeded: output-available,
    a recognized tool, truthy [result.success] and truthy payload field.
    A part whose output has a falsy [success] queues nothing, and any
    number of passes over it leave the state, ProcessedCallSet included, as
    it was: it is examined and skipped again on every pass. *)
Theorem marked_only_after_successful_dispatch :
  (forall (st : ChatState number) agentMessages id,
      id ∈ processed (observer_pass st agentMessages) ->
      id ∉ processed st ->
      exists inv,
        In (ToolInvocationPart inv) (visited_parts agentMessages)
        /\ toolCallId inv = id
        /\ dispatch_succeeded inv)
  /\ (forall inv : ToolInvocation number,
        truthy (get (output_value inv) "success") = false ->
        (forall P, observe_part P (ToolInvocationPart inv) = [])
        /\ (forall (st : ChatState number) messageId created n,
              observer_passes st
                (repeat [mkMessage number messageId assistant
                           [ToolInvocationPart inv] created] n)
              = st)).
Proof.
  split.
  - intros st agentMessages id Hin Hnew.
    apply commit_processed in Hin. destruct Hin as [Hin|Hin]; [contradiction|].
    rewrite observe_messages_visited in Hin.
    apply in_flat_map in Hin. destruct Hin as (part & Hvisited & Hin).
    destruct part as [text|inv]; [destruct Hin|].
    exists inv.
    destruct (observe_part_cases (processedToolCalls st) inv)
      as [[Hq _] | [(_ & Hacc & _ & v & Hq) | (_ & Hacc & _ & Hq)]];
      rewrite Hq in Hin; simpl in Hin.
    + destruct Hin.
    + destruct Hin as [Hin|[Hin|[]]]; [discriminate|]. injection Hin as Hid.
      split; [exact Hvisited | split; [exact Hid | apply accepted_succeeded, Hacc]].
    + destruct Hin as [Hin|[Hin|[Hin|[]]]]; [discriminate | discriminate |].
      injection Hin as Hid.
      split; [exact Hvisited | split; [exact Hid | apply accepted_succeeded, Hacc]].
  - intros inv Hfail.
    assert (Hnone : forall P, observe_part P (ToolInvocationPart inv) = []).
    { intros P.
      destruct (observe_part_cases P inv)
        as [[Hq _] | [(_ & Hacc & _) | (_ & Hacc & _)]]; [exact Hq | |];
        apply accepted_succeeded in Hacc; destruct Hacc as (_ & Hsuccess & _);
        congruence. }
    split; [exact Hnone|].
    intros st messageId created n. induction n as [|n IH]; [reflexivity|].
    cbn [repeat observer_passes fold_left].
    rewrite observer_pass_skips; [exact IH|].
    rewrite visited_single. intros part [<-|[]]. apply Hnone.
Qed.

End ClientProperties.

(** * The properties at concrete inputs *)

Section Concrete.
Import Examples.

(** The sanitizer's rule as section 4.1 words it, on a tail of two
    incomplete invocations: it applies a first time, then a second time to
    its own result, and only then no more. *)
Example drop_trailing_applies_twice :
  drop_trailing [assistantMessage [TextPart "t"; pendingPart "a"; pendingPart "b"]]
  = Some [assistantMessage [TextPart "t"; pendingPart "a"]]
  /\ drop_trailing [assistantMessage [TextPart "t"; pendingPart "a"]]
     = Some [assistantMessage [TextPart "t"]]
  /\ drop_trailing [assistantMessage [TextPart "t"]] = None.
Proof. repeat split; reflexivity. Qed.

(** After an accepted [setShotId] part the tracked identifier has changed,
    so the component's effect on [shotId] starts a fetch of its own, besides
    the one of the observer. *)
Example shotId_effect_fetches_again :
  observe_messages (processedToolCalls start) [assistantMessage [setPart]]
  = [SetShotId (JNum (Int 150)); HandleShotQuery (JNum (Int 150)); MarkProcessed "call-2"]
  /\ shotId_effect (observer_pass start [assistantMessage [setPart]])
     = [HandleShotQuery (JNum (Int 150))].
Proof. split; reflexivity. Qed.

(** A turn with three calls in one assistant message: [setShotId(150)], a
    [queryShotDetails] result and [visualizeCurlingShot].  The stones shown
    are those of the visualization call; the set holds the two calls the
    observer dispatches. *)
Example scenario_three_calls :
  let st' := observer_pass start
               [userMessage "shot 150";
                assistantMessage [setPart; queryPart (JObj [("success", JBool true)]); vizPart]] in
  get (currentShot st') "stones"
  = JArr (map stone_value (vi_stones shot42))
  /\ processedToolCalls st' = {["call-1"; "call-2"]}.
Proof. split; [reflexivity | vm_compute; reflexivity]. Qed.

(** C1.  The observer at the failing input: a list that holds the same
    accepted part twice, met with an empty ProcessedCallSet.  The claim, and
    the comment "Skip if we've already processed this tool call" in the
    source, say that the second encounter is skipped; the pass does not skip
    it, because [processedToolCalls.has] reads the set captured by the
    render.  The visualization state is set twice for "call-1", and a
    duplicated [setShotId] part starts two fetches. *)
Lemma duplicate_in_one_list_dispatched_twice :
  dispatches "call-1" (passes_actions start [[assistantMessage [vizPart; vizPart]]]) = 2
  /\ length (List.filter is_SetCurrentShot
               (observe_messages (processedToolCalls start)
                  [assistantMessage [vizPart; vizPart]])) = 2
  /\ length (List.filter is_HandleShotQuery
               (observe_messages (processedToolCalls start)
                  [assistantMessage [setPart; setPart]])) = 2.
Proof. repeat split; vm_compute; reflexivity. Qed.

Lemma dispatched_once_across_passes_witness :
  ("call-1" ∉ processedToolCalls start)
  /\ 1 <= occurrences "call-1" [assistantMessage [vizPart]]
  /\ dispatches "call-1"
       (passes_actions start
          [[assistantMessage [vizPart]];
           [assistantMessage [vizPart]];
           [assistantMessage [vizPart; setPart]]])
     = 1.
Proof.
  assert (Hnew : "call-1" ∉ processedToolCalls start) by (vm_compute; set_solver).
  assert (Hocc : 1 <= occurrences "call-1" [assistantMessage [vizPart]])
    by (vm_compute; lia).
  split; [exact Hnew | split; [exact Hocc|]].
  exact (proj1 (dispatched_once_across_passes start [assistantMessage [vizPart]]
                  [[assistantMessage [vizPart]]; [assistantMessage [vizPart; setPart]]]
                  "call-1" Hnew Hocc)).
Defined.

Lemma streamText_at_most_10_steps_witness :
  10 <= 12
  /\ always_requests registry eagerModel [userMessage "shot 42"]
  /\ exists steps,
       streamText registry eagerModel [userMessage "shot 42"] 12
       = Some (steps, StepBoundReached)
       /\ length steps = 10.
Proof.
  assert (Hfuel : 10 <= 12) by lia.
  assert (Halways : always_requests registry eagerModel [userMessage "shot 42"])
    by (intros steps; split; [discriminate | reflexivity]).
  split; [exact Hfuel | split; [exact Halways|]].
  exact (proj2 (proj2 (streamText_at_most_10_steps registry eagerModel
                         [userMessage "shot 42"] 12 Hfuel)) Halways).
Defined.

Lemma queryShotDetails_failure_contained_witness :
  record_absent (mkEnv IntegerNumber (Some emptyDb)) (Int 9999)
  /\ outcome_of (queryShotDetails_execute (mkEnv IntegerNumber (Some emptyDb)) (Int 9999))
     = Ok (failure "Shot with ID 9999 not found")
  /\ lookup_throws (mkEnv IntegerNumber (Some brokenDb)) (Int 9999)
       (ThrownError "D1_ERROR: no such table: shots")
  /\ outcome_of (queryShotDetails_execute (mkEnv IntegerNumber (Some brokenDb)) (Int 9999))
     = Ok (failure "D1_ERROR: no such table: shots")
  /\ observer_pass start
       [assistantMessage [queryPart (failure "Shot with ID 9999 not found")]]
     = start.
Proof.
  assert (Habsent : record_absent (mkEnv IntegerNumber (Some emptyDb)) (Int 9999))
    by (exists emptyDb, JNull; repeat split; reflexivity).
  assert (Hthrows : lookup_throws (mkEnv IntegerNumber (Some brokenDb)) (Int 9999)
                      (ThrownError "D1_ERROR: no such table: shots"))
    by (exists brokenDb; split; [reflexivity | left; reflexivity]).
  pose proof (queryShotDetails_failure_contained
                (mkEnv IntegerNumber (Some emptyDb)) (Int 9999))
    as (_ & _ & Hnotfound & _ & Hunchanged).
  pose proof (queryShotDetails_failure_contained
                (mkEnv IntegerNumber (Some brokenDb)) (Int 9999))
    as (_ & _ & _ & Hcaught & _).
  split; [exact Habsent | split; [exact (Hnotfound Habsent) | split; [exact Hthrows|]]].
  split; [exact (Hcaught _ Hthrows)|].
  exact (Hunchanged (failure "Shot with ID 9999 not found") start "m1" "call-4" JNull None
           (Hnotfound Habsent)).
Defined.

Lemma visualizeCurlingShot_replaces_state_witness :
  ("call-1" ∉ processedToolCalls start)
  /\ currentShot (observer_pass start [userMessage "shot 42"; assistantMessage [setPart; vizPart]])
     = JObj [("stones",
               JArr [JObj [("color", JStr "red"); ("x", JNum (Int 10)); ("y", JNum (Int (-25)))];
                     JObj [("color", JStr "yellow"); ("x", JNum (Int (-40))); ("y", JNum (Int 12))]]);
             ("shotInfo",
               JObj [("player", JStr "Niklas Edin");
                     ("team", JStr "SWE");
                     ("type", JStr "Draw");
                     ("shotId", JNum (Int 42))])].
Proof.
  assert (Hnew : "call-1" ∉ processedToolCalls start) by (vm_compute; set_solver).
  split; [exact Hnew|].
  exact (proj1 (proj2 (proj2 (visualizeCurlingShot_replaces_state shot42))
                  start "call-1" JNull [userMessage "shot 42"] "m1" [setPart] None Hnew)).
Defined.

Lemma setShotId_updates_and_fetches_witness :
  ("call-2" ∉ processedToolCalls start)
  /\ shotId (observer_pass start [assistantMessage [setPart]]) = JNum (Int 150)
  /\ truthy (get shotBody "success") = true
  /\ truthy (get shotBody "shot") = true
  /\ truthy (get shotBody "stones") = true
  /\ currentShot (commit start (handleShotQuery_settled (JNum (Int 150)) (Ok shotBody)))
     = shotBody.
Proof.
  assert (Hnew : "call-2" ∉ processedToolCalls start) by (vm_compute; set_solver).
  pose proof (setShotId_updates_and_fetches (mkSetShotIdInput IntegerNumber (Int 150) None))
    as (_ & Hobserve & Hsettle).
  split; [exact Hnew|].
  split; [exact (proj1 (proj2 (Hobserve start "call-2" JNull "m1" None Hnew)))|].
  repeat (split; [reflexivity|]).
  exact (proj2 (Hsettle start (JNum (Int 150)) shotBody eq_refl eq_refl eq_refl)).
Defined.

Lemma processedToolCalls_only_grows_witness :
  session_run start
    (commit (observer_pass start [assistantMessage [setPart]])
       (handleShotQuery_settled (JNum (Int 150)) (Ok shotBody)))
  /\ processedToolCalls start
     ⊆ processedToolCalls
         (commit (observer_pass start [assistantMessage [setPart]])
            (handleShotQuery_settled (JNum (Int 150)) (Ok shotBody))).
Proof.
  assert (Hrun : session_run start
            (commit (observer_pass start [assistantMessage [setPart]])
               (handleShotQuery_settled (JNum (Int 150)) (Ok shotBody)))).
  { eapply run_step; [eapply run_step; [apply run_refl | apply step_observer]|].
    apply step_shot_settled. }
  split; [exact Hrun|].
  exact (proj2 (proj2 processedToolCalls_only_grows) _ _ Hrun).
Defined.

Lemma unrecognized_tool_is_ignored_witness :
  toolName (queryInvocation JNull) <> "visualizeCurlingShot"
  /\ toolName (queryInvocation JNull) <> "setShotId"
  /\ observer_pass start [assistantMessage [queryPart JNull]] = start.
Proof.
  assert (Hviz : toolName (queryInvocation JNull) <> "visualizeCurlingShot")
    by discriminate.
  assert (Hset : toolName (queryInvocation JNull) <> "setShotId") by discriminate.
  split; [exact Hviz | split; [exact Hset|]].
  exact (proj2 (unrecognized_tool_is_ignored (queryInvocation JNull) Hviz Hset)
           start "m1" None).
Defined.

Lemma marked_only_after_successful_dispatch_witness :
  truthy (get (output_value failedInvocation) "success") = false
  /\ observer_passes start (repeat [assistantMessage [failedPart]] 3) = start
  /\ ("call-2" ∈ processedToolCalls (observer_pass start [assistantMessage [failedPart; setPart]]))
  /\ ("call-2" ∉ processedToolCalls start)
  /\ exists inv,
       In (ToolInvocationPart inv) (visited_parts [assistantMessage [failedPart; setPart]])
       /\ toolCallId inv = "call-2"
       /\ dispatch_succeeded inv.
Proof.
  assert (Hfail : truthy (get (output_value failedInvocation) "success") = false)
    by reflexivity.
  assert (Hin : "call-2" ∈ processedToolCalls
                  (observer_pass start [assistantMessage [failedPart; setPart]]))
    by (vm_compute; set_solver).
  assert (Hnew : "call-2" ∉ processedToolCalls start) by (vm_compute; set_solver).
  pose proof (marked_only_after_successful_dispatch (number:=IntegerNumber))
    as (Honly & Hskipped).
  split; [exact Hfail|].
  split; [exact (proj2 (Hskipped failedInvocation Hfail) start "m1" None 3)|].
  split; [exact Hin | split; [exact Hnew|]].
  exact (Honly start [assistantMessage [failedPart; setPart]] "call-2" Hin Hnew).
Defined.

Lemma queryDatabase_select_guard_witness :
  startsWith (toLowerCase (trim "DROP TABLE shots")) "select" = false
  /\ queryDatabase_execute (mkEnv IntegerNumber (Some emptyDb))
       (mkQueryDatabaseInput IntegerNumber "DROP TABLE shots" None)
     = ([], Ok (failure "Only SELECT queries are allowed with this tool. Use querySQLiteDatabase for other operations."))
  /\ startsWith (toLowerCase (trim "  SeLeCT * FROM shots WHERE id = ?")) "select" = true
  /\ calls_of (queryDatabase_execute (mkEnv IntegerNumber (Some emptyDb))
                 (mkQueryDatabaseInput IntegerNumber "  SeLeCT * FROM shots WHERE id = ?"
                    (Some [JNum (Int 42)])))
     = [mkD1Call IntegerNumber "  SeLeCT * FROM shots WHERE id = ?"
          (Some [JNum (Int 42)]) MethodAll].
Proof.
  pose proof (queryDatabase_select_guard (mkEnv IntegerNumber (Some emptyDb))
                (mkQueryDatabaseInput IntegerNumber "DROP TABLE shots" None))
    as (Hrefused & _).
  pose proof (queryDatabase_select_guard (mkEnv IntegerNumber (Some emptyDb))
                (mkQueryDatabaseInput IntegerNumber "  SeLeCT * FROM shots WHERE id = ?"
                   (Some [JNum (Int 42)])))
    as (_ & Hsubmitted & _).
  split; [reflexivity | split; [exact (Hrefused eq_refl)|]].
  split; [reflexivity|].
  exact (Hsubmitted eq_refl emptyDb eq_refl).
Defined.

End Concrete.

(** * Further properties of the code *)

(** ** The SELECT guard, character by character *)

Lemma isWhiteSpace_lowerChar (c : ascii) :
  isWhiteSpace (lowerChar c) = isWhiteSpace c.
Proof.
  destruct c as [b0 b1 b2 b3 b4 b5 b6 b7].
  destruct b0, b1, b2, b3, b4, b5, b6, b7; reflexivity.
Qed.

Lemma trimStart_keeps_first (s : string) (c : ascii) (t : string) :
  trimStart s = String c t -> isWhiteSpace c = false.
Proof.
  induction s as [|d s IH]; simpl; [discriminate|].
  destruct (isWhiteSpace d) eqn:Hd; [exact IH|].
  intros Heq. injection Heq as <- _. exact Hd.
Qed.

Lemma trimStart_whitespace (ws t : string) :
  all_whitespace ws = true -> trimStart (ws +:+ t) = trimStart t.
Proof.
  induction ws as [|c ws IH]; intros Hws.
  - reflexivity.
  - simpl in Hws. apply andb_true_iff in Hws. destruct Hws as [Hc Hws].
    change (String c ws +:+ t) with (String c (ws +:+ t)).
    cbn [trimStart]. rewrite Hc. apply IH, Hws.
Qed.

Lemma startsWith_cons (c : ascii) (s p : string) :
  startsWith (String c s) (String c p) = startsWith s p.
Proof.
  unfold startsWith. simpl. destruct (ascii_dec c c) as [_|Hne]; [reflexivity | congruence].
Qed.

Lemma startsWith_cons_dec (c d : ascii) (s p : string) :
  startsWith (String c s) (String d p)
  = if ascii_dec d c then startsWith s p else false.
Proof. reflexivity. Qed.

Lemma startsWith_empty (s : string) : startsWith s "" = true.
Proof. destruct s; reflexivity. Qed.

(** Six letters that lower-case to "select", after any white space and
    before anything at all, pass the guard. *)
Lemma select_prefix_passes (ws p rest : string) :
  all_whitespace ws = true ->
  toLowerCase p = "select" ->
  startsWith (toLowerCase (trim (ws +:+ p +:+ rest))) "select" = true.
Proof.
  intros Hws Hp. unfold trim. rewrite trimStart_whitespace by exact Hws.
  destruct p as [|c1 [|c2 [|c3 [|c4 [|c5 [|c6 [|c7 p]]]]]]]; try discriminate Hp.
  cbn [toLowerCase] in Hp. injection Hp as H1 H2 H3 H4 H5 H6.
  assert (Hnot : forall c l, lowerChar c = l -> isWhiteSpace l = false ->
                             isWhiteSpace c = false).
  { intros c l <- Hl. rewrite <- isWhiteSpace_lowerChar. exact Hl. }
  cbv beta iota delta [String.append].
  cbn [trimStart]. rewrite (Hnot c1 _ H1 eq_refl).
  rewrite (trimEnd_cons c1) by exact (Hnot c1 _ H1 eq_refl).
  rewrite (trimEnd_cons c2) by exact (Hnot c2 _ H2 eq_refl).
  rewrite (trimEnd_cons c3) by exact (Hnot c3 _ H3 eq_refl).
  rewrite (trimEnd_cons c4) by exact (Hnot c4 _ H4 eq_refl).
  rewrite (trimEnd_cons c5) by exact (Hnot c5 _ H5 eq_refl).
  rewrite (trimEnd_cons c6) by exact (Hnot c6 _ H6 eq_refl).
  cbn [toLowerCase]. rewrite H1, H2, H3, H4, H5, H6.
  rewrite !startsWith_cons. apply startsWith_empty.
Qed.

(** A query whose first character after the leading white space does not
    lower-case to "s", or that has no such character, fails the guard. *)
Lemma other_first_letter_fails (query : string) :
  (trimStart query = ""
   \/ exists c t, trimStart query = String c t /\ lowerChar c <> "s"%char) ->
  startsWith (toLowerCase (trim query)) "select" = false.
Proof.
  unfold trim. intros [Hempty | (c & t & Hfirst & Hc)].
  - rewrite Hempty. reflexivity.
  - rewrite Hfirst, trimEnd_cons by exact (trimStart_keeps_first _ _ _ Hfirst).
    cbn [toLowerCase]. change "select" with (String "s" "elect").
    rewrite startsWith_cons_dec.
    destruct (ascii_dec "s" (lowerChar c)) as [Heq|_]; [congruence | reflexivity].
Qed.

(** ** The tools, beyond the claims *)

Section MoreToolProperties.
Context {number : Type} `{JsNumber number}.

#[local] Abbreviation JsValue := (JsValue number).

(** [queryDatabase] submits the original text of every query that passes
    the guard, once. *)
Lemma queryDatabase_submits (env : Env number) (input : QueryDatabaseInput number)
    (db : D1Database number) :
  startsWith (toLowerCase (trim (qd_query input))) "select" = true ->
  DB env = Some db ->
  queryDatabase_execute env input
  = ([mkD1Call number (qd_query input) (bound_params (qd_params input)) MethodAll],
     match d1_all db (qd_query input) (bound_params (qd_params input)) with
     | Ok result =>
         Ok (JObj [("success", JBool true);
                   ("rows", match results result with
                            | Some rows => JArr rows
                            | None => JUndefined
                            end);
                   ("count", match results result with
                             | Some rows =>
                                 js_or (JNum (num_of_nat (length rows)))
                                       (JNum (num_of_nat 0))
                             | None => JNum (num_of_nat 0)
                             end);
                   ("meta", meta result)])
     | Throw e => Ok (failure (error_text e))
     end).
Proof.
  intros Hguard Hdb. unfold queryDatabase_execute, bound_params.
  rewrite Hguard, Hdb. simpl negb. cbv iota.
  destruct (qd_params input) as [ps|].
  - destruct (0 <? length ps)%nat; unfold db_all, bind, try_catch, ret;
      match goal with
      | |- context [d1_all ?d ?q ?p] => destruct (d1_all d q p)
      end; reflexivity.
  - unfold db_all, bind, try_catch, ret.
    match goal with
    | |- context [d1_all ?d ?q ?p] => destruct (d1_all d q p)
    end; reflexivity.
Qed.

(** X1.  [queryDatabase.execute] never throws: it settles with an object
    whose [success] is a boolean, a [{success: false, error}] whenever that
    boolean is false, and it calls the database at most once. *)
Theorem queryDatabase_contained (env : Env number) (input : QueryDatabaseInput number) :
  exists out b,
    outcome_of (queryDatabase_execute env input) = Ok out
    /\ get out "success" = JBool b
    /\ (b = false -> exists error, out = failure error)
    /\ length (calls_of (queryDatabase_execute env input)) <= 1.
Proof.
  destruct (startsWith (toLowerCase (trim (qd_query input))) "select") eqn:Hguard.
  - destruct (DB env) as [db|] eqn:Hdb.
    + rewrite (queryDatabase_submits env input db Hguard Hdb).
      destruct (d1_all db (qd_query input) (bound_params (qd_params input))) as [r|e].
      * eexists _, true. repeat split; [discriminate | simpl; lia].
      * eexists _, false. repeat split; [eauto | simpl; lia].
    + unfold queryDatabase_execute. rewrite Hguard, Hdb.
      eexists _, false. repeat split; [eauto | simpl; lia].
  - unfold queryDatabase_execute. rewrite Hguard.
    eexists _, false. repeat split; [eauto | simpl; lia].
Qed.

(** X2.  When the query passes the guard and the database answers, the
    tool returns the rows as they came, their number as [count] (0 when the
    answer carries no [results]) and the answer's [meta]. *)
Theorem queryDatabase_success_payload (env : Env number)
    (input : QueryDatabaseInput number) (db : D1Database number)
    (result : D1Result number) :
  lengths_truthy ->
  startsWith (toLowerCase (trim (qd_query input))) "select" = true ->
  DB env = Some db ->
  d1_all db (qd_query input) (bound_params (qd_params input)) = Ok result ->
  outcome_of (queryDatabase_execute env input)
  = Ok (JObj [("success", JBool true);
              ("rows", match results result with
                       | Some rows => JArr rows
                       | None => JUndefined
                       end);
              ("count", JNum (num_of_nat
                                (length (match results result with
                                         | Some rows => rows
                                         | None => []
                                         end))));
              ("meta", meta result)]).
Proof.
  intros Hnum Hguard Hdb Hall.
  rewrite (queryDatabase_submits env input db Hguard Hdb), Hall.
  unfold outcome_of. cbn [snd].
  destruct (results result) as [rows|]; [|reflexivity].
  unfold js_or. cbn [truthy].
  destruct rows as [|row rows]; [destruct (num_truthy _); reflexivity|].
  rewrite Hnum by (simpl; lia). reflexivity.
Qed.

(** X3.  When the database throws on a query that passed the guard, the
    tool has made that one call and returns the thrown error's message as
    [error], unchanged. *)
Theorem queryDatabase_reports_database_error (env : Env number)
    (input : QueryDatabaseInput number) (db : D1Database number) (e : Thrown) :
  startsWith (toLowerCase (trim (qd_query input))) "select" = true ->
  DB env = Some db ->
  d1_all db (qd_query input) (bound_params (qd_params input)) = Throw e ->
  queryDatabase_execute env input
  = ([mkD1Call number (qd_query input) (bound_params (qd_params input)) MethodAll],
     Ok (failure (error_text e))).
Proof.
  intros Hguard Hdb Hall.
  rewrite (queryDatabase_submits env input db Hguard Hdb), Hall. reflexivity.
Qed.

(** X4.  The guard looks at six characters only: after any leading white
    space, a query that begins with the letters of "select" in any case is
    submitted to the database as written, whatever follows them (a second
    statement included). *)
Theorem queryDatabase_accepts_any_select_prefix (env : Env number)
    (db : D1Database number) (ws p rest : string)
    (params : option (list JsValue)) :
  all_whitespace ws = true ->
  toLowerCase p = "select" ->
  DB env = Some db ->
  calls_of (queryDatabase_execute env
              (mkQueryDatabaseInput number (ws +:+ p +:+ rest) params))
  = [mkD1Call number (ws +:+ p +:+ rest) (bound_params params) MethodAll].
Proof.
  intros Hws Hp Hdb.
  rewrite (queryDatabase_submits env
             (mkQueryDatabaseInput number (ws +:+ p +:+ rest) params) db
             (select_prefix_passes ws p rest Hws Hp) Hdb).
  reflexivity.
Qed.

(** X5.  A query that is empty or all white space, or whose first
    character after the leading white space is not an "s" in either case
    (a query that opens with WITH or with a parenthesis, say), is refused
    without a database call. *)
Theorem queryDatabase_refuses_other_first_letter (env : Env number)
    (input : QueryDatabaseInput number) :
  (trimStart (qd_query input) = ""
   \/ exists c t, trimStart (qd_query input) = String c t /\ lowerChar c <> "s"%char) ->
  queryDatabase_execute env input
  = ([], Ok (failure "Only SELECT queries are allowed with this tool. Use querySQLiteDatabase for other operations.")).
Proof.
  intros Hfirst. unfold queryDatabase_execute.
  rewrite (other_first_letter_fails _ Hfirst). reflexivity.
Qed.

(** X6.  When the shot exists and its stones can be read,
    [queryShotDetails.execute] makes the two lookups in order, both with the
    shot id bound as the only parameter, and returns the row, the stones
    (none when the answer carries no [results]) and their number. *)
Theorem queryShotDetails_success (env : Env number) (shotId : number)
    (db : D1Database number) (row : JsValue) (stoneResult : D1Result number) :
  DB env = Some db ->
  d1_first db shotQuery (Some [JNum shotId]) = Ok row ->
  truthy row = true ->
  d1_all db stoneQuery (Some [JNum shotId]) = Ok stoneResult ->
  queryShotDetails_execute env shotId
  = ([mkD1Call number shotQuery (Some [JNum shotId]) MethodFirst;
      mkD1Call number stoneQuery (Some [JNum shotId]) MethodAll],
     Ok (JObj [("success", JBool true);
               ("shot", row);
               ("stones", JArr (match results stoneResult with
                                | Some rows => rows
                                | None => []
                                end));
               ("count", JNum (num_of_nat
                                 (length (match results stoneResult with
                                          | Some rows => rows
                                          | None => []
                                          end))))])).
Proof.
  intros Hdb Hfirst Htruthy Hall.
  unfold queryShotDetails_execute, db_first, db_all, bind, try_catch, ret.
  rewrite Hdb, Hfirst, Htruthy. simpl negb. cbv iota. rewrite Hall. reflexivity.
Qed.

(** X7.  Whatever the database does, [queryShotDetails.execute] calls it
    with the two fixed SQL texts only, the shot id always passed as the
    bound parameter and never written into the text: no call, the lookup of
    the shot alone, or that lookup followed by the one of its stones. *)
Theorem queryShotDetails_calls_are_parameterised (env : Env number) (shotId : number) :
  let lookup := mkD1Call number shotQuery (Some [JNum shotId]) MethodFirst in
  let stones := mkD1Call number stoneQuery (Some [JNum shotId]) MethodAll in
  calls_of (queryShotDetails_execute env shotId) = []
  \/ calls_of (queryShotDetails_execute env shotId) = [lookup]
  \/ calls_of (queryShotDetails_execute env shotId) = [lookup; stones].
Proof.
  cbv zeta. unfold queryShotDetails_execute, db_first, db_all, bind, try_catch, ret.
  destruct (DB env) as [db|]; [|left; reflexivity].
  destruct (d1_first db shotQuery (Some [JNum shotId])) as [row|e];
    [|right; left; reflexivity].
  destruct (truthy row); simpl negb; cbv iota; [|right; left; reflexivity].
  destruct (d1_all db stoneQuery (Some [JNum shotId])); right; right; reflexivity.
Qed.

End MoreToolProperties.

(** ** The worker's [/api/shot] endpoint *)

Section WorkerProperties.
Context {number : Type} `{JsNumber number}.
Variable Number : string -> number.

#[local] Abbreviation JsValue := (JsValue number).

(** The parameter passes the endpoint's validation. *)
Lemma api_shot_valid (env : Env number) (s : string) :
  String.eqb s "" = false ->
  num_isNaN (Number s) = false ->
  api_shot Number env (Some s)
  = try_catch
      (match DB env with
       | None =>
           ret (mkResponse number 500 (JsonBody (failure "Database not configured")))
       | Some db =>
           let! shotResult := db_first db api_shotQuery (Some [JNum (Number s)]) in
           if negb (truthy shotResult) then
             ret (mkResponse number 404
                    (JsonBody (failure ("Shot with ID " +:+ s +:+ " not found"))))
           else
             let! stoneResult := db_all db api_stoneQuery (Some [JNum (Number s)]) in
             ret (mkResponse number 200
                    (JsonBody
                       (JObj [("success", JBool true);
                              ("shot", shotResult);
                              ("stones", JArr (match results stoneResult with
                                               | Some rows => rows
                                               | None => []
                                               end))])))
       end)
      (fun error =>
         ret (mkResponse number 500 (JsonBody (failure "Database query failed")))).
Proof.
  intros Hs Hnan. unfold api_shot. cbn [truthy]. rewrite Hs, Hnan. reflexivity.
Qed.

(** X8.  [GET /api/shot] never throws and always answers with a JSON
    object: status 200 with [success: true], or status 400, 404 or 500 with
    a [{success: false, error}]. *)
Theorem api_shot_always_answers (env : Env number) (shotId : option string) :
  exists response v,
    outcome_of (api_shot Number env shotId) = Ok response
    /\ body response = JsonBody v
    /\ ((status response = 200 /\ get v "success" = JBool true)
        \/ (In (status response) [400; 404; 500] /\ exists error, v = failure error)).
Proof.
  unfold api_shot.
  destruct shotId as [s|];
    [|eexists _, _; repeat split; right; split; [simpl; auto | eauto]].
  destruct (negb (truthy (JStr s : JsValue)) || num_isNaN (Number s));
    [eexists _, _; repeat split; right; split; [simpl; auto | eauto]|].
  unfold db_first, db_all, bind, try_catch, ret.
  destruct (DB env) as [db|];
    [|eexists _, _; repeat split; right; split; [simpl; auto | eauto]].
  destruct (d1_first db api_shotQuery (Some [JNum (Number s)])) as [row|e];
    [|eexists _, _; repeat split; right; split; [simpl; auto | eauto]].
  destruct (truthy row); simpl negb; cbv iota;
    [|eexists _, _; repeat split; right; split; [simpl; auto | eauto]].
  destruct (d1_all db api_stoneQuery (Some [JNum (Number s)])) as [r|e];
    eexists _, _; repeat split;
    [left; split; reflexivity | right; split; [simpl; auto | eauto]].
Qed.

(** X9.  A request without an [id], with an empty one, or with one that
    [Number] turns into [NaN] is answered 400 "Valid shot ID required"
    before the database binding is even looked at. *)
Theorem api_shot_rejects_invalid_id (env : Env number) (shotId : option string) :
  (shotId = None
   \/ shotId = Some ""
   \/ exists s, shotId = Some s /\ num_isNaN (Number s) = true) ->
  api_shot Number env shotId
  = ([], Ok (mkResponse number 400 (JsonBody (failure "Valid shot ID required")))).
Proof.
  intros [-> | [-> | (s & -> & Hnan)]]; unfold api_shot; [reflexivity | reflexivity |].
  rewrite Hnan, orb_true_r. reflexivity.
Qed.

(** X10.  When the database throws during either lookup, the endpoint
    answers 500 with the fixed text "Database query failed": the thrown
    message is not sent to the client. *)
Theorem api_shot_hides_database_error (env : Env number) (s : string)
    (db : D1Database number) (e : Thrown) :
  String.eqb s "" = false ->
  num_isNaN (Number s) = false ->
  DB env = Some db ->
  (d1_first db api_shotQuery (Some [JNum (Number s)]) = Throw e
   \/ exists row,
        d1_first db api_shotQuery (Some [JNum (Number s)]) = Ok row
        /\ truthy row = true
        /\ d1_all db api_stoneQuery (Some [JNum (Number s)]) = Throw e) ->
  outcome_of (api_shot Number env (Some s))
  = Ok (mkResponse number 500 (JsonBody (failure "Database query failed"))).
Proof.
  intros Hs Hnan Hdb Hthrow. rewrite (api_shot_valid env s Hs Hnan), Hdb.
  unfold db_first, db_all, bind, try_catch, ret.
  destruct Hthrow as [Hfirst | (row & Hfirst & Htruthy & Hall)].
  - rewrite Hfirst. reflexivity.
  - rewrite Hfirst, Htruthy. simpl negb. cbv iota. rewrite Hall. reflexivity.
Qed.

(** What the client does with a failure body. *)
Lemma handleShotQuery_settled_failure (id : JsValue) (error : string) :
  String.eqb error "" = false ->
  handleShotQuery_settled id (Ok (failure error)) = [SendMessage ("Error: " +:+ error)].
Proof.
  intros Herror. unfold handleShotQuery_settled, failure, js_or.
  cbn [get_strict get lookup_field String.eqb Ascii.eqb Bool.eqb truthy andb].
  simpl. rewrite Herror. reflexivity.
Qed.

(** X11.  End to end, for whatever the endpoint answers to the client's
    [fetch]: on status 200 [handleShotQuery] replaces the visualization
    state by the body, whose [stones] is an array; on every other status it
    leaves the state alone and sends one chat message, "Error: " followed by
    the endpoint's error text. *)
Theorem api_shot_then_handleShotQuery (env : Env number) (shotId : option string)
    (id : JsValue) :
  exists response v,
    outcome_of (api_shot Number env shotId) = Ok response
    /\ body response = JsonBody v
    /\ ((status response = 200
         /\ handleShotQuery_settled id (Ok v) = [SetCurrentShot v]
         /\ exists stones, get v "stones" = JArr stones)
        \/ (status response <> 200
            /\ exists error,
                 get v "error" = JStr error
                 /\ handleShotQuery_settled id (Ok v)
                    = [SendMessage ("Error: " +:+ error)])).
Proof.
  assert (Hfail : forall st error,
    st <> 200 -> String.eqb error "" = false ->
    exists response v,
      Ok (mkResponse number st (JsonBody (failure error))) = Ok response
      /\ body response = JsonBody v
      /\ ((status response = 200
           /\ handleShotQuery_settled id (Ok v) = [SetCurrentShot v]
           /\ exists stones, get v "stones" = JArr stones)
          \/ (status response <> 200
              /\ exists error,
                   get v "error" = JStr error
                   /\ handleShotQuery_settled id (Ok v)
                      = [SendMessage ("Error: " +:+ error)]))).
  { intros st error Hst Herror. eexists _, _. split; [reflexivity|].
    split; [reflexivity|]. right. split; [exact Hst|].
    exists error. split; [reflexivity|].
    apply handleShotQuery_settled_failure, Herror. }
  unfold api_shot.
  destruct shotId as [s|]; [|apply Hfail; [discriminate | reflexivity]].
  destruct (negb (truthy (JStr s : JsValue)) || num_isNaN (Number s));
    [apply Hfail; [discriminate | reflexivity]|].
  unfold db_first, db_all, bind, try_catch, ret, outcome_of.
  destruct (DB env) as [db|]; [|apply Hfail; [discriminate | reflexivity]].
  destruct (d1_first db api_shotQuery (Some [JNum (Number s)])) as [row|e];
    [|apply Hfail; [discriminate | reflexivity]].
  destruct (truthy row) eqn:Hrow; simpl negb; cbv iota;
    [|apply Hfail; [discriminate | reflexivity]].
  destruct (d1_all db api_stoneQuery (Some [JNum (Number s)])) as [r|e];
    [|apply Hfail; [discriminate | reflexivity]].
  eexists _, _. split; [reflexivity|]. split; [reflexivity|].
  left. split; [reflexivity|]. split; [|eexists; reflexivity].
  unfold handleShotQuery_settled.
  cbn [get_strict get lookup_field String.eqb Ascii.eqb Bool.eqb truthy andb].
  simpl. rewrite Hrow. reflexivity.
Qed.

(** X12.  The endpoint and the [queryShotDetails] tool are two readings of
    the same lookup: on a database that answers both spellings of the SQL
    alike, and for a parameter that [Number] reads as the tool's shot id,
    they agree on [success], on the shot row and on the stones, in every
    case (binding absent, record absent, lookup throwing, success). *)
Theorem api_shot_agrees_with_queryShotDetails (env : Env number) (s : string)
    (shotId : number) :
  String.eqb s "" = false ->
  Number s = shotId ->
  num_isNaN shotId = false ->
  (forall db, DB env = Some db -> answers_alike db shotId) ->
  exists response v out,
    outcome_of (api_shot Number env (Some s)) = Ok response
    /\ body response = JsonBody v
    /\ outcome_of (queryShotDetails_execute env shotId) = Ok out
    /\ get v "success" = get out "success"
    /\ get v "shot" = get out "shot"
    /\ get v "stones" = get out "stones".
Proof.
  intros Hs HNumber Hnan Halike.
  rewrite (api_shot_valid env s Hs); [|rewrite HNumber; exact Hnan].
  rewrite HNumber. unfold queryShotDetails_execute.
  destruct (DB env) as [db|] eqn:Hdb;
    [|eexists _, _, _; repeat split; reflexivity].
  destruct (Halike db eq_refl) as [Hfirst Hall].
  unfold db_first, db_all, bind, try_catch, ret, outcome_of.
  rewrite Hfirst.
  destruct (d1_first db shotQuery (Some [JNum shotId])) as [row|e];
    [|eexists _, _, _; repeat split; reflexivity].
  destruct (truthy row); simpl negb; cbv iota;
    [|eexists _, _, _; repeat split; reflexivity].
  rewrite Hall.
  destruct (d1_all db stoneQuery (Some [JNum shotId])) as [r|e];
    eexists _, _, _; repeat split; reflexivity.
Qed.

End WorkerProperties.

(** ** The client component, beyond the claims *)

Lemma trimStart_empty (s : string) :
  String.eqb (trimStart s) "" = all_whitespace s.
Proof.
  induction s as [|c s IH]; [reflexivity|].
  simpl. destruct (isWhiteSpace c); [exact IH | reflexivity].
Qed.

Lemma trimEnd_empty (s : string) :
  String.eqb (trimEnd s) "" = all_whitespace s.
Proof.
  induction s as [|c s IH]; [reflexivity|].
  cbn [trimEnd all_whitespace]. rewrite <- IH.
  destruct (trimEnd s); cbn [String.eqb]; [|rewrite andb_false_r; reflexivity].
  destruct (isWhiteSpace c); reflexivity.
Qed.

(** [trim] leaves nothing exactly of the strings that are all white space. *)
Lemma trim_empty (s : string) : String.eqb (trim s) "" = all_whitespace s.
Proof.
  unfold trim. rewrite trimEnd_empty, <- (trimStart_empty s).
  destruct (trimStart s) as [|c t] eqn:Hstart; [reflexivity|].
  cbn [all_whitespace String.eqb].
  rewrite (trimStart_keeps_first s c t Hstart). reflexivity.
Qed.

Section MoreClientProperties.
Context {number : Type} `{JsNumber number}.

#[local] Abbreviation JsValue := (JsValue number).
#[local] Abbreviation processed := (@processedToolCalls number).

(** Removing the first "tool-" from [part.type] gives back the tool's name. *)
Lemma derived_toolName_toolName (inv : ToolInvocation number) :
  derived_toolName inv = toolName inv.
Proof.
  unfold derived_toolName, part_type. destruct (toolName inv); reflexivity.
Qed.


Lemma pending_confirmation_iff (required : list string)
    (agentMessages : list (Message number)) :
  pending_confirmation required agentMessages = true
  <-> exists m inv,
        In m agentMessages
        /\ In (ToolInvocationPart inv) (parts m)
        /\ state inv = input_available
        /\ In (toolName inv) required.
Proof.
  unfold pending_confirmation. rewrite existsb_exists. split.
  - intros (m & Hm & Hparts). apply existsb_exists in Hparts.
    destruct Hparts as (part & Hpart & Hpending).
    destruct part as [text|inv]; [discriminate|].
    apply andb_true_iff in Hpending. destruct Hpending as [Hstate Hname].
    apply existsb_exists in Hname. destruct Hname as (name & Hin & Heq).
    apply String.eqb_eq in Heq. rewrite derived_toolName_toolName in Heq.
    exists m, inv. repeat split; try assumption.
    + destruct (state inv); simpl in Hstate; congruence.
    + rewrite Heq. exact Hin.
  - intros (m & inv & Hm & Hpart & Hstate & Hname).
    exists m. split; [exact Hm|]. apply existsb_exists.
    exists (ToolInvocationPart inv). split; [exact Hpart|].
    rewrite Hstate. cbn [state_eqb andb]. apply existsb_exists.
    exists (toolName inv). split; [exact Hname|].
    rewrite derived_toolName_toolName. apply String.eqb_refl.
Qed.

Lemma never_pending (agentMessages : list (Message number)) :
  pendingToolCallConfirmation agentMessages = false.
Proof.
  unfold pendingToolCallConfirmation, toolsRequiringConfirmation.
  destruct (pending_confirmation [] agentMessages) eqn:Hpending; [|reflexivity].
  apply pending_confirmation_iff in Hpending.
  destruct Hpending as (m & inv & _ & _ & _ & []).
Qed.

(** X15.  [pendingToolCallConfirmation] holds exactly when some message
    carries a tool part in [input-available] whose tool is listed as
    requiring confirmation, the tool's name being recovered from
    [part.type]; with the component's empty list it never holds, so the
    text area is never locked. *)
Theorem pending_confirmation_spec (required : list string)
    (agentMessages : list (Message number)) :
  (pending_confirmation required agentMessages = true
   <-> exists m inv,
         In m agentMessages
         /\ In (ToolInvocationPart inv) (parts m)
         /\ state inv = input_available
         /\ In (toolName inv) required)
  /\ pendingToolCallConfirmation agentMessages = false.
Proof. split; [apply pending_confirmation_iff | apply never_pending]. Qed.

(** X16.  [handleAgentSubmit] sends nothing for an input that is empty or
    all white space, and otherwise sends the input exactly as typed (not
    trimmed) and clears the box; the submit button is disabled for exactly
    the inputs that would not be sent. *)
Theorem handleAgentSubmit_sends_visible_input (agentInput : string)
    (agentMessages : list (Message number)) :
  handleAgentSubmit agentInput
  = (if all_whitespace agentInput then None
     else Some (mkSubmission agentInput ""))
  /\ submit_disabled agentMessages agentInput = all_whitespace agentInput.
Proof.
  unfold handleAgentSubmit, submit_disabled.
  rewrite trim_empty, never_pending. split; reflexivity.
Qed.

(** An accepted part that a pass visits has its call in the set after the
    pass. *)
Lemma occurrences_positive (agentMessages : list (Message number))
    (inv : ToolInvocation number) :
  In (ToolInvocationPart inv) (visited_parts agentMessages) ->
  accepted (ToolInvocationPart inv) = true ->
  1 <= occurrences (toolCallId inv) agentMessages.
Proof.
  intros Hin Hacc. unfold occurrences.
  assert (Hf : In (ToolInvocationPart inv)
                 (List.filter
                    (fun p => accepted p
                              && match part_id p with
                                 | Some id' => String.eqb id' (toolCallId inv)
                                 | None => false
                                 end)
                    (visited_parts agentMessages))).
  { apply List.filter_In. split; [exact Hin|].
    rewrite Hacc. cbn [part_id andb]. apply String.eqb_refl. }
  destruct (List.filter _ _); [destruct Hf | simpl; lia].
Qed.

Lemma processed_after_pass_iff (st : ChatState number)
    (agentMessages : list (Message number)) (id : string) :
  id ∈ processed (observer_pass st agentMessages)
  <-> id ∈ processed st \/ 1 <= occurrences id agentMessages.
Proof.
  unfold observer_pass. rewrite commit_processed, <- dispatches_positive.
  rewrite dispatches_observe_messages.
  destruct (decide (id ∈ processedToolCalls st)) as [Hin|Hnot].
  - split; [intros _; left; exact Hin | intros _; left; exact Hin].
  - split; (intros [Hin|Hocc]; [left; exact Hin | right; lia]).
Qed.

(** X17.  After an observer pass ProcessedCallSet holds exactly the IDs it
    held before and the IDs of the calls that the list presents in an
    accepted part: nothing is lost and nothing else is added. *)
Theorem processed_after_pass (st : ChatState number)
    (agentMessages : list (Message number)) (id : string) :
  id ∈ processed (observer_pass st agentMessages)
  <-> id ∈ processed st
      \/ exists inv,
           In (ToolInvocationPart inv) (visited_parts agentMessages)
           /\ toolCallId inv = id
           /\ dispatch_succeeded inv.
Proof.
  rewrite processed_after_pass_iff. split.
  - intros [Hin|Hocc]; [left; exact Hin|].
    unfold occurrences in Hocc.
    destruct (List.filter _ _) as [|part rest] eqn:Hf; [simpl in Hocc; lia|].
    assert (Hpart : In part (part :: rest)) by (left; reflexivity).
    rewrite <- Hf in Hpart. apply List.filter_In in Hpart.
    destruct Hpart as [Hvisited Hok]. apply andb_true_iff in Hok.
    destruct Hok as [Hacc Hid].
    destruct part as [text|inv]; [discriminate|].
    cbn [part_id] in Hid. apply String.eqb_eq in Hid.
    right. exists inv. split; [exact Hvisited|]. split; [exact Hid|].
    apply accepted_succeeded, Hacc.
  - intros [Hin | (inv & Hvisited & Hid & Hok)]; [left; exact Hin|].
    right. rewrite <- Hid. apply occurrences_positive; [exact Hvisited|].
    apply accepted_succeeded, Hok.
Qed.

(** X18.  The observer settles after one pass: a second pass over the same
    list queues no update and leaves the state as the first pass left it,
    so the re-run that the update of ProcessedCallSet causes is the last. *)
Theorem second_pass_changes_nothing (st : ChatState number)
    (agentMessages : list (Message number)) :
  observe_messages (processed (observer_pass st agentMessages)) agentMessages = []
  /\ observer_pass (observer_pass st agentMessages) agentMessages
     = observer_pass st agentMessages.
Proof.
  assert (Hskip : forall part,
    In part (visited_parts agentMessages) ->
    observe_part (processed (observer_pass st agentMessages)) part = []).
  { intros part Hvisited. destruct part as [text|inv]; [reflexivity|].
    destruct (observe_part_cases (processed (observer_pass st agentMessages)) inv)
      as [[Hq _] | [(Hnot & Hacc & _) | (Hnot & Hacc & _)]]; [exact Hq | |];
      exfalso; apply Hnot; apply processed_after_pass_iff; right;
      apply occurrences_positive; assumption. }
  split; [|apply observer_pass_skips; exact Hskip].
  rewrite observe_messages_visited.
  induction (visited_parts agentMessages) as [|part rest IH]; [reflexivity|].
  cbn [flat_map]. rewrite (Hskip part) by (left; reflexivity).
  apply IH. intros part' Hin. apply Hskip. right. exact Hin.
Qed.

Lemma flat_map_dispatchable (P : gset string) (ps : list (Part number)) :
  flat_map (observe_part P) (List.filter dispatchable ps)
  = flat_map (observe_part P) ps.
Proof.
  induction ps as [|part ps IH]; [reflexivity|].
  cbn [List.filter]. destruct (dispatchable part) eqn:Hd.
  - cbn [flat_map]. rewrite IH. reflexivity.
  - cbn [flat_map]. rewrite IH.
    destruct part as [text|inv]; [reflexivity|].
    cbn [dispatchable] in Hd. unfold observe_part. rewrite Hd. reflexivity.
Qed.

(** X19.  Only the output-available tool parts of assistant messages
    count: a pass over a message list queues the same updates, and ends in
    the same state, as a pass over the list with user and system messages,
    text parts and tool parts in any other state removed. *)
Theorem observer_reads_only_dispatchable (st : ChatState number)
    (agentMessages : list (Message number)) :
  observe_messages (processed st) agentMessages
  = observe_messages (processed st) (only_dispatchable agentMessages)
  /\ observer_pass st agentMessages
     = observer_pass st (only_dispatchable agentMessages).
Proof.
  assert (Hsame : forall P,
    observe_messages P agentMessages
    = observe_messages P (only_dispatchable agentMessages)).
  { intros P. unfold observe_messages, only_dispatchable.
    induction agentMessages as [|m ms IH]; [reflexivity|].
    cbn [flat_map List.filter]. rewrite IH. unfold observe_message at 1.
    destruct (role_eqb (role m) assistant) eqn:Hrole; [|reflexivity].
    cbn [map flat_map]. unfold observe_message at 2.
    cbn [with_parts role parts]. rewrite Hrole, flat_map_dispatchable. reflexivity. }
  split; [apply Hsame|]. unfold observer_pass. rewrite <- Hsame. reflexivity.
Qed.

End MoreClientProperties.

(** * The further properties at concrete inputs *)

Section MoreConcrete.
Import Examples Fixtures.

Lemma IntegerNumber_lengths_truthy : lengths_truthy (number:=IntegerNumber).
Proof.
  intros n Hn. cbn [num_truthy num_of_nat IntegerNumber_JsNumber].
  destruct n as [|n]; [lia | reflexivity].
Defined.

Lemma queryDatabase_success_payload_witness :
  lengths_truthy (number:=IntegerNumber)
  /\ startsWith (toLowerCase (trim "SELECT color, x, y FROM stone_positions")) "select" = true
  /\ DB curlingEnv = Some curlingDb
  /\ outcome_of (queryDatabase_execute curlingEnv
                   (mkQueryDatabaseInput IntegerNumber
                      "SELECT color, x, y FROM stone_positions" None))
     = Ok (JObj [("success", JBool true);
                 ("rows", JArr [JObj [("color", JStr "red");
                                      ("x", JNum (Int 3)); ("y", JNum (Int 4))]]);
                 ("count", JNum (Int 1));
                 ("meta", JNull)]).
Proof.
  split; [exact IntegerNumber_lengths_truthy|].
  split; [reflexivity | split; [reflexivity|]].
  exact (queryDatabase_success_payload curlingEnv
           (mkQueryDatabaseInput IntegerNumber
              "SELECT color, x, y FROM stone_positions" None)
           curlingDb
           (mkD1Result IntegerNumber
              (Some [JObj [("color", JStr "red"); ("x", JNum (Int 3)); ("y", JNum (Int 4))]])
              JNull)
           IntegerNumber_lengths_truthy eq_refl eq_refl eq_refl).
Defined.

Lemma queryDatabase_reports_database_error_witness :
  startsWith (toLowerCase (trim "select * from shots")) "select" = true
  /\ queryDatabase_execute (mkEnv IntegerNumber (Some brokenDb))
       (mkQueryDatabaseInput IntegerNumber "select * from shots" (Some []))
     = ([mkD1Call IntegerNumber "select * from shots" None MethodAll],
        Ok (failure "D1_ERROR: no such table: shots")).
Proof.
  split; [reflexivity|].
  exact (queryDatabase_reports_database_error (mkEnv IntegerNumber (Some brokenDb))
           (mkQueryDatabaseInput IntegerNumber "select * from shots" (Some []))
           brokenDb (ThrownError "D1_ERROR: no such table: shots")
           eq_refl eq_refl eq_refl).
Defined.

Lemma queryDatabase_accepts_any_select_prefix_witness :
  all_whitespace "  " = true
  /\ toLowerCase "SeLeCt" = "select"
  /\ calls_of (queryDatabase_execute curlingEnv
                 (mkQueryDatabaseInput IntegerNumber
                    ("  " +:+ "SeLeCt" +:+ " 1; DROP TABLE shots") None))
     = [mkD1Call IntegerNumber "  SeLeCt 1; DROP TABLE shots" None MethodAll].
Proof.
  split; [reflexivity | split; [reflexivity|]].
  exact (queryDatabase_accepts_any_select_prefix curlingEnv curlingDb
           "  " "SeLeCt" " 1; DROP TABLE shots" None eq_refl eq_refl eq_refl).
Defined.

Lemma queryDatabase_refuses_other_first_letter_witness :
  trimStart " WITH t AS (SELECT 1) SELECT * FROM t"
  = String "W" "ITH t AS (SELECT 1) SELECT * FROM t"
  /\ lowerChar "W" <> "s"%char
  /\ queryDatabase_execute curlingEnv
       (mkQueryDatabaseInput IntegerNumber " WITH t AS (SELECT 1) SELECT * FROM t" None)
     = ([], Ok (failure "Only SELECT queries are allowed with this tool. Use querySQLiteDatabase for other operations.")).
Proof.
  assert (Hw : lowerChar "W" <> "s"%char) by discriminate.
  split; [reflexivity | split; [exact Hw|]].
  exact (queryDatabase_refuses_other_first_letter curlingEnv
           (mkQueryDatabaseInput IntegerNumber " WITH t AS (SELECT 1) SELECT * FROM t" None)
           (or_intror (ex_intro _ "W"%char (ex_intro _ _ (conj eq_refl Hw))))).
Defined.

Lemma queryShotDetails_success_witness :
  truthy (JObj [("shot_id", JNum (Int 150)); ("player_name", JStr "Eve Muirhead")]
          : JsValue IntegerNumber) = true
  /\ outcome_of (queryShotDetails_execute curlingEnv (Int 150))
     = Ok (JObj [("success", JBool true);
                 ("shot", JObj [("shot_id", JNum (Int 150));
                                ("player_name", JStr "Eve Muirhead")]);
                 ("stones", JArr [JObj [("color", JStr "red");
                                        ("x", JNum (Int 3)); ("y", JNum (Int 4))]]);
                 ("count", JNum (Int 1))])
  /\ length (calls_of (queryShotDetails_execute curlingEnv (Int 150))) = 2.
Proof.
  pose proof (queryShotDetails_success curlingEnv (Int 150) curlingDb
                (JObj [("shot_id", JNum (Int 150)); ("player_name", JStr "Eve Muirhead")])
                (mkD1Result IntegerNumber
                   (Some [JObj [("color", JStr "red"); ("x", JNum (Int 3));
                                ("y", JNum (Int 4))]])
                   JNull)
                eq_refl eq_refl eq_refl eq_refl) as Hrun.
  split; [reflexivity|]. rewrite Hrun. split; reflexivity.
Defined.

Lemma api_shot_rejects_invalid_id_witness :
  num_isNaN (NumberOfDigits "abc") = true
  /\ api_shot NumberOfDigits curlingEnv (Some "abc")
     = ([], Ok (mkResponse IntegerNumber 400
                  (JsonBody (failure "Valid shot ID required")))).
Proof.
  split; [reflexivity|].
  exact (api_shot_rejects_invalid_id NumberOfDigits curlingEnv (Some "abc")
           (or_intror (or_intror (ex_intro _ "abc" (conj eq_refl eq_refl))))).
Defined.

Lemma api_shot_hides_database_error_witness :
  String.eqb "150" "" = false
  /\ num_isNaN (NumberOfDigits "150") = false
  /\ outcome_of (api_shot NumberOfDigits (mkEnv IntegerNumber (Some brokenDb)) (Some "150"))
     = Ok (mkResponse IntegerNumber 500 (JsonBody (failure "Database query failed"))).
Proof.
  split; [reflexivity | split; [reflexivity|]].
  exact (api_shot_hides_database_error NumberOfDigits
           (mkEnv IntegerNumber (Some brokenDb)) "150" brokenDb
           (ThrownError "D1_ERROR: no such table: shots")
           eq_refl eq_refl eq_refl (or_introl eq_refl)).
Defined.

Lemma api_shot_agrees_with_queryShotDetails_witness :
  NumberOfDigits "150" = Int 150
  /\ answers_alike curlingDb (Int 150)
  /\ exists response v out,
       outcome_of (api_shot NumberOfDigits curlingEnv (Some "150")) = Ok response
       /\ body response = JsonBody v
       /\ outcome_of (queryShotDetails_execute curlingEnv (Int 150)) = Ok out
       /\ get v "success" = get out "success"
       /\ get v "shot" = get out "shot"
       /\ get v "stones" = get out "stones".
Proof.
  assert (Halike : forall db, DB curlingEnv = Some db -> answers_alike db (Int 150)).
  { intros db Hdb. injection Hdb as <-. split; reflexivity. }
  split; [reflexivity | split; [exact (Halike curlingDb eq_refl)|]].
  exact (api_shot_agrees_with_queryShotDetails NumberOfDigits curlingEnv "150" (Int 150)
           eq_refl eq_refl eq_refl Halike).
Defined.

(** The endpoint on the fixture database, read by the client: shot 150 is
    shown, shot 151 is reported as missing. *)
Example api_shot_read_by_client :
  snd (api_shot NumberOfDigits curlingEnv (Some "150"))
  = Ok (mkResponse IntegerNumber 200
          (JsonBody
             (JObj [("success", JBool true);
                    ("shot", JObj [("shot_id", JNum (Int 150));
                                   ("player_name", JStr "Eve Muirhead")]);
                    ("stones", JArr [JObj [("color", JStr "red");
                                           ("x", JNum (Int 3)); ("y", JNum (Int 4))]])])))
  /\ snd (api_shot NumberOfDigits curlingEnv (Some "151"))
     = Ok (mkResponse IntegerNumber 404
             (JsonBody (failure "Shot with ID 151 not found")))
  /\ handleShotQuery_settled (JNum (Int 151))
       (Ok (failure "Shot with ID 151 not found" : JsValue IntegerNumber))
     = [SendMessage "Error: Shot with ID 151 not found"].
Proof. repeat split; reflexivity. Qed.

End MoreConcrete.
